(** * humblebundle-downloader: the incremental sync of [download_library.py]

    A shallow embedding of [src/humblebundle_downloader/download_library.py]:
    the name sanitiser [_clean_name], the option handling of
    [DownloadLibrary.__init__], the two filters, and the order and trove
    processors with the download step they share.

    Conventions.
    - A Python [str] is a [string] whose characters are the code points
      U+0000 to U+00FF; [isalpha], [isdigit], [isspace] and [lower] are
      Python's tables restricted to that range.
    - A method that touches the disk, the network or the queue is a function
      [FS -> result * FS * trace]: the file system is threaded, a raised
      exception is a value, and the trace lists the outside calls in the
      order they are made.
    - The remote side answers with well-formed JSON; a request that raises
      is an absent answer.
    - The order branch of [start] hands one [_process_order_id] per purchase
      key to a pool of worker processes; the embedding covers the work unit
      a worker runs, and the trove branch, which is sequential, as a
      whole. *)

From Stdlib Require Import Ascii String List Bool Arith Lia.
From stdpp Require Import base option list gmap strings.

Local Open Scope stdpp_scope.

(** ** Python strings *)

Module PyStr.

Definition code (c : ascii) : nat := nat_of_ascii c.

Definition between (lo hi : nat) (c : ascii) : bool :=
  Nat.leb lo (code c) && Nat.leb (code c) hi.

(** [c.isalpha()] on U+0000..U+00FF. *)
Definition isalpha (c : ascii) : bool :=
  between 65 90 c || between 97 122 c
  || Nat.eqb (code c) 170 || Nat.eqb (code c) 181 || Nat.eqb (code c) 186
  || between 192 214 c || between 216 246 c || between 248 255 c.

(** [c.isdigit()] on U+0000..U+00FF (the superscripts count). *)
Definition isdigit (c : ascii) : bool :=
  between 48 57 c
  || Nat.eqb (code c) 178 || Nat.eqb (code c) 179 || Nat.eqb (code c) 185.

(** [c.isspace()] on U+0000..U+00FF. *)
Definition isspace (c : ascii) : bool :=
  between 9 13 c || between 28 32 c
  || Nat.eqb (code c) 133 || Nat.eqb (code c) 160.

(** One character of [s.lower()]. *)
Definition lower_char (c : ascii) : ascii :=
  if between 65 90 c || between 192 214 c || between 216 222 c
  then ascii_of_nat (code c + 32) else c.

Fixpoint lower (s : string) : string :=
  match s with
  | EmptyString => EmptyString
  | String c s' => String (lower_char c) (lower s')
  end.

Fixpoint all (p : ascii -> bool) (s : string) : bool :=
  match s with
  | EmptyString => true
  | String c s' => p c && all p s'
  end.

Fixpoint keep (p : ascii -> bool) (s : string) : string :=
  match s with
  | EmptyString => EmptyString
  | String c s' => if p c then String c (keep p s') else keep p s'
  end.

(** [s.replace(old, new)] for a one-character [old]. *)
Fixpoint replace (old : ascii) (new : string) (s : string) : string :=
  match s with
  | EmptyString => EmptyString
  | String c s' =>
      if Ascii.eqb c old then new +:+ replace old new s'
      else String c (replace old new s')
  end.

Fixpoint lstrip_by (p : ascii -> bool) (s : string) : string :=
  match s with
  | EmptyString => EmptyString
  | String c s' => if p c then lstrip_by p s' else s
  end.

Fixpoint rstrip_by (p : ascii -> bool) (s : string) : string :=
  match s with
  | EmptyString => EmptyString
  | String c s' =>
      match rstrip_by p s' with
      | EmptyString => if p c then EmptyString else String c EmptyString
      | r => String c r
      end
  end.

(** [s.strip()] *)
Definition strip (s : string) : string :=
  rstrip_by isspace (lstrip_by isspace s).

(** [s.rstrip(c)] for a one-character argument. *)
Definition rstrip (c : ascii) (s : string) : string :=
  rstrip_by (Ascii.eqb c) s.

Definition head (s : string) : option ascii :=
  match s with
  | EmptyString => None
  | String c _ => Some c
  end.

Fixpoint last (s : string) : option ascii :=
  match s with
  | EmptyString => None
  | String c EmptyString => Some c
  | String _ s' => last s'
  end.

(** [s.split(sep)[0]]: what stands before the first [sep]. *)
Fixpoint split_first (sep : ascii) (s : string) : string :=
  match s with
  | EmptyString => EmptyString
  | String c s' =>
      if Ascii.eqb c sep then EmptyString else String c (split_first sep s')
  end.

Fixpoint contains (sep : ascii) (s : string) : bool :=
  match s with
  | EmptyString => false
  | String c s' => Ascii.eqb c sep || contains sep s'
  end.

(** [s.split(sep)[-1]]: what stands after the last [sep]. *)
Fixpoint split_last (sep : ascii) (s : string) : string :=
  match s with
  | EmptyString => EmptyString
  | String c s' =>
      if contains sep s' then split_last sep s'
      else if Ascii.eqb c sep then s' else s
  end.

(** No character of the wanted kind at the right end, at the left end. *)
Definition right_clean (p : ascii -> bool) (s : string) : Prop :=
  forall c, last s = Some c -> p c = false.

Definition left_clean (p : ascii -> bool) (s : string) : Prop :=
  forall c, head s = Some c -> p c = false.

(** [x in l] for a list of strings. *)
Definition mem (x : string) (l : list string) : bool :=
  existsb (String.eqb x) l.

(** Truth value of a string, and of [None] or a string. *)
Definition truthy (s : string) : bool :=
  match s with EmptyString => false | _ => true end.

Definition truthy_opt (o : option string) : bool :=
  match o with Some s => truthy s | None => false end.

End PyStr.

(** ** [_clean_name] (lines 23-30) *)

Definition allowed_chars : list ascii :=
  [" "; "_"; "."; "-"; "["; "]"]%char.

Definition clean_keeps (c : ascii) : bool :=
  PyStr.isalpha c || PyStr.isdigit c || existsb (Ascii.eqb c) allowed_chars.

Definition _clean_name (dirty_str : string) : string :=
  let replaced :=
    PyStr.replace ":" " -" (PyStr.replace "+" "_" dirty_str) in
  let clean := PyStr.keep clean_keeps replaced in
  PyStr.rstrip "."%char (PyStr.strip clean).

(** ** The cache store ([data/cache.py]) *)

Module cache.

(** Modelled from the spec: the class [CsvCacheData] of [data/cache.py],
    which is not in the sources. Section 3 of the spec gives a record its
    key (container, filename) and the three fields; an unset field reads
    as [None]. *)
Record CsvCacheData := mkCsvCacheData {
  order_id : string;
  filename : string;
  md5 : option string;
  remote_modified_date : option string;
  local_modified_date : option string
}.

Definition key (r : CsvCacheData) : string * string :=
  (order_id r, filename r).

Definition set_md5 (r : CsvCacheData) (v : option string) : CsvCacheData :=
  mkCsvCacheData (order_id r) (filename r) v
    (remote_modified_date r) (local_modified_date r).

Definition set_remote_modified_date (r : CsvCacheData) (v : string)
  : CsvCacheData :=
  mkCsvCacheData (order_id r) (filename r) (md5 r)
    (Some v) (local_modified_date r).

Definition set_local_modified_date (r : CsvCacheData) (v : string)
  : CsvCacheData :=
  mkCsvCacheData (order_id r) (filename r) (md5 r)
    (remote_modified_date r) (Some v).

(** Modelled from the spec: the class [Cache] of [data/cache.py], which is
    not in the sources: "durable mapping from (order identifier, remote
    filename) to last-known metadata (remote modification marker, content
    hash, local modification timestamp)", loaded once; the workers never
    write to it (the cache writer is the sole mutator). *)
Record Metadata := mkMetadata {
  m_md5 : option string;
  m_remote_modified_date : option string;
  m_local_modified_date : option string
}.

Abbreviation Cache := (gmap (string * string) Metadata).

(** Modelled from the spec: "get(container_id, filename) -> CacheRecord
    (returns an empty/sentinel record if absent - never fails)". The
    keyword [trove] of the call in the trove path selects no other store
    in the spec. *)
Definition get_cache_item (c : Cache) (order_id filename : string)
    (trove : bool) : CsvCacheData :=
  match c !! (order_id, filename) with
  | Some m =>
      mkCsvCacheData order_id filename (m_md5 m)
        (m_remote_modified_date m) (m_local_modified_date m)
  | None => mkCsvCacheData order_id filename None None None
  end.

(** Modelled from the spec: [item in cache], "a record exists in the
    store": the key of the item has a record. *)
Definition contains (c : Cache) (item : CsvCacheData) : bool :=
  bool_decide (is_Some (c !! key item)).

End cache.

Import cache.

(** ** Exceptions, calls to the outside, and the effect monad *)

Inductive exn :=
| SystemExit
| KeyboardInterrupt
| KeyError
| AttributeError
| ValueError
| OSError
| OverflowError
| OtherException.

(** [except Exception] catches everything but the two [BaseException]s. *)
Definition is_Exception (e : exn) : bool :=
  match e with
  | SystemExit | KeyboardInterrupt => false
  | _ => true
  end.

Definition is_KeyboardInterrupt (e : exn) : bool :=
  match e with KeyboardInterrupt => true | _ => false end.

Definition is_OSError (e : exn) : bool :=
  match e with OSError => true | _ => false end.

(** The calls that leave the process, in the order they are made. *)
Inductive event :=
| EvOrder (order_id : string)              (* session.get(order_url) *)
| EvSign (machine_name web_name : string)  (* session.post(.../sign) *)
| EvGet (url : string)                     (* session.get(url, stream=True) *)
| EvRename (path date : string)            (* file_ops.rename_old_file *)
| EvDownload (path : string) (raised : option exn)
                                           (* file_ops.download_file *)
| EvRemove (path : string)                 (* os.remove *)
| EvPut (item : CsvCacheData)              (* multiprocess_queue.put *)
| EvClose.                                 (* open_r.connection.close() *)

(** The byte stream of a response: chunks, and possibly an exception raised
    while the next chunk is read or written (stream abort, disk full,
    Ctrl-C). *)
Inductive piece :=
| Chunk (data : string)
| Fail (e : exn).

Record Response := mkResponse {
  status_code : nat;
  last_modified : option string;     (* headers['Last-Modified'] *)
  body : list piece
}.

(** The JSON of the signing request. *)
Record SignResponse := mkSignResponse {
  _errors : option string;
  signed_url : option string
}.

(** The JSON of the catalog. *)
Record FileType := mkFileType {
  ft_url : gmap string string;       (* file_type['url'] *)
  ft_human_size : option string;
  ft_md5 : option string
}.

Record DownloadType := mkDownloadType {
  dt_platform : string;
  download_struct : list FileType
}.

Record Product := mkProduct {
  human_name : string;
  downloads : list DownloadType
}.

Record Order := mkOrder {
  order_human_name : string;         (* order['product']['human_name'] *)
  subproducts : list Product
}.

Record TroveDownload := mkTroveDownload {
  url_web : string;                  (* download['url']['web'] *)
  td_uploaded_at : option string;
  td_timestamp : option string;
  td_md5 : option string;
  td_machine_name : string
}.

Record TroveProduct := mkTroveProduct {
  tp_human_name : string;            (* product['human-name'] *)
  tp_downloads : list (string * TroveDownload);   (* the dict, in order *)
  tp_date_added : option string
}.

(** What the run consumes from outside: the session, the folder naming of
    [file_ops], the two date conversions and the clock. A request that
    raises is [None]; a date conversion that raises is [None] too, and
    [epoch_error] tells the exception of the second one: [ValueError] when
    [int] refuses the string, [OverflowError] or [OSError] when
    [time.localtime] refuses the number. *)
Record Env := mkEnv {
  get_order : string -> option Order;
  session_get : string -> option Response;
  post_sign : string -> string -> option SignResponse;
  create_product_folder : string -> string -> string;
  (* datetime.strptime(s, '%a, %d %b %Y %H:%M:%S %Z').strftime('%Y-%m-%d') *)
  http_date_to_ymd : string -> option string;
  (* time.strftime('%Y-%m-%d', time.localtime(int(s))) *)
  epoch_to_ymd : string -> option string;
  (* datetime.datetime.now().strftime("%d %b %Y %H:%M:%S %Z") *)
  now : string;
  (* what time.localtime(int(s)) raises when epoch_to_ymd s is None *)
  epoch_error : string -> exn
}.

Abbreviation FS := (gmap string string).

Inductive result (A : Type) :=
| Ok (a : A)
| Raise (e : exn).
Arguments Ok {A} a.
Arguments Raise {A} e.

Definition M (A : Type) : Type := FS -> result A * FS * list event.

Definition ret {A} (a : A) : M A := fun fs => (Ok a, fs, []).

Definition bind {A B} (m : M A) (f : A -> M B) : M B := fun fs =>
  match m fs with
  | (Ok a, fs1, t1) =>
      match f a fs1 with
      | (r, fs2, t2) => (r, fs2, t1 ++ t2)
      end
  | (Raise e, fs1, t1) => (Raise e, fs1, t1)
  end.

Definition raise {A} (e : exn) : M A := fun fs => (Raise e, fs, []).

Definition emit (ev : event) : M unit := fun fs => (Ok tt, fs, [ev]).

Declare Scope py_scope.
Delimit Scope py_scope with py.
Notation "x <- m ;; k" := (bind m (fun x => k))
  (at level 100, m at next level, right associativity) : py_scope.
Notation "m ;; k" := (bind m (fun _ => k))
  (at level 100, right associativity) : py_scope.
Local Open Scope py_scope.

(** [for x in l: body(x)]; a [continue] is a body that returns. *)
Fixpoint for_each {A} (l : list A) (body : A -> M unit) : M unit :=
  match l with
  | [] => ret tt
  | x :: l' => body x ;; for_each l' body
  end.

(** [try: body / except <catches> as e: handler(e) / else: orelse /
    finally: final]. An exception of [orelse] or of [handler] is not
    caught; [final] runs in every case. *)
Definition try_except_else_finally {A}
    (body : M A) (catches : exn -> bool) (handler : exn -> M unit)
    (orelse : A -> M unit) (final : M unit) : M unit := fun fs =>
  let '(r1, fs1, t1) :=
    match body fs with
    | (Ok a, fs0, t0) =>
        match orelse a fs0 with (r, fs', t') => (r, fs', t0 ++ t') end
    | (Raise e, fs0, t0) =>
        if catches e
        then match handler e fs0 with (r, fs', t') => (r, fs', t0 ++ t') end
        else (Raise e, fs0, t0)
    end in
  match final fs1 with
  | (Ok _, fs2, t2) => (r1, fs2, t1 ++ t2)
  | (Raise e, fs2, t2) => (Raise e, fs2, t1 ++ t2)
  end.

(** [try: body / except <catches>: pass] *)
Definition try_pass (body : M unit) (catches : exn -> bool) : M unit :=
  fun fs =>
  match body fs with
  | (Raise e, fs1, t1) =>
      if catches e then (Ok tt, fs1, t1) else (Raise e, fs1, t1)
  | ok => ok
  end.

(** [sys.exit()] *)
Definition sys_exit {A} : M A := raise SystemExit.

(** ** [file_ops] and [os] *)

(** [os.path.join(a, b)] as on a POSIX system ([posixpath.join]). *)
Definition os_path_join (a b : string) : string :=
  if Ascii.eqb (default "x"%char (PyStr.head b)) "/" then b
  else if negb (PyStr.truthy a) then b
  else if Ascii.eqb (default "x"%char (PyStr.last a)) "/" then a +:+ b
  else a +:+ "/" +:+ b.

(** [s.rsplit(sep, 1)] when [sep] occurs: what stands before and after its
    last occurrence. *)
Fixpoint rsplit1 (sep : ascii) (s : string) : option (string * string) :=
  match s with
  | EmptyString => None
  | String c s' =>
      match rsplit1 sep s' with
      | Some (a, b) => Some (String c a, b)
      | None => if Ascii.eqb c sep then Some (EmptyString, s') else None
      end
  end.

(** Modelled from the spec: the name [file_ops.rename_old_file] gives the
    superseded file; [iops/file_ops.py] is not in the sources. The spec
    embeds the hint "as a suffix before the extension" and gives
    [game.zip] with hint [2023-01-01] the name [game [2023-01-01].zip]. *)
Definition dated_name (path date : string) : string :=
  let suffix := " [" +:+ date +:+ "]" in
  match rsplit1 "." path with
  | Some (stem, ext) =>
      if PyStr.contains "/" ext then path +:+ suffix
      else stem +:+ suffix +:+ "." +:+ ext
  | None => path +:+ suffix
  end.

(** Modelled from the spec: [file_ops.rename_old_file], "rename the
    existing file at destination_path to embed the hint ...,
    best-effort (log on failure, do not abort)". *)
Definition rename_old_file (local_filename append_str : string) : M unit :=
  fun fs =>
  match fs !! local_filename with
  | Some old =>
      (Ok tt, <[dated_name local_filename append_str := old]>
                (delete local_filename fs),
       [EvRename local_filename append_str])
  | None => (Ok tt, fs, [EvRename local_filename append_str])
  end.

Fixpoint write_stream (stream : list piece) (written : string)
    : string * option exn :=
  match stream with
  | [] => (written, None)
  | Chunk data :: rest => write_stream rest (written +:+ data)
  | Fail e :: _ => (written, Some e)
  end.

(** Modelled from the spec: [file_ops.download_file], "stream response
    bytes to destination_path": the file is opened for writing at the
    destination itself and receives the chunks until the stream ends or an
    exception is raised, which leaves what was written so far. *)
Definition download_file (open_r : Response) (local_filename : string)
    (progress_bar : bool) : M unit := fun fs =>
  let '(written, raised) := write_stream (body open_r) EmptyString in
  (match raised with None => Ok tt | Some e => Raise e end,
   <[local_filename := written]> fs,
   [EvDownload local_filename raised]).

(** [os.remove(path)] *)
Definition os_remove (path : string) : M unit := fun fs =>
  match fs !! path with
  | Some _ => (Ok tt, delete path fs, [EvRemove path])
  | None => (Raise OSError, fs, [EvRemove path])
  end.

(** The queue handed to a worker, or [None]. *)
Inductive Queue := JoinableQueue.

(** [multiprocess_queue.put(item)] *)
Definition queue_put (multiprocess_queue : option Queue)
    (item : CsvCacheData) : M unit :=
  match multiprocess_queue with
  | Some _ => emit (EvPut item)
  | None => raise AttributeError
  end.

(** ** [DownloadLibrary] *)

Record DownloadLibrary := mkDownloadLibrary {
  progress_bar : bool;
  ext_include : list string;
  ext_exclude : list string;
  cache_data_csv : Cache;
  platform_include : list string;
  purchase_keys : list string;
  trove : bool;
  update : bool;
  content_types : list string
}.

(** [__init__] (lines 55-78); [loaded] is what [file_ops.load_cache_csv()]
    returns. The session set-up has no part in the claims. *)
Definition __init__ (loaded : Cache) (progress_bar : bool)
    (ext_include ext_exclude platform_include : option (list string))
    (purchase_keys : list string) (trove update : bool)
    (content_types : option (list string)) : DownloadLibrary :=
  let ext_include' :=
    match ext_include with None => [] | Some l => map PyStr.lower l end in
  let ext_exclude' :=
    match ext_exclude with None => [] | Some l => map PyStr.lower l end in
  let platform_include' :=
    match platform_include with
    | None => []
    | Some l => if PyStr.mem "all" l then [] else l
    end in
  let content_types' :=
    match content_types with
    | None => ["web"]
    | Some l => map PyStr.lower l
    end in
  mkDownloadLibrary progress_bar ext_include' ext_exclude' loaded
    (map PyStr.lower platform_include') purchase_keys trove update
    content_types'.

(** A list is true when it is not empty. *)
Definition nonempty {A} (l : list A) : bool :=
  match l with [] => false | _ => true end.

(** [_should_download_platform] (lines 397-401) *)
Definition _should_download_platform (self : DownloadLibrary)
    (platform : string) : bool :=
  let platform := PyStr.lower platform in
  if nonempty (platform_include self)
     && negb (PyStr.mem platform (platform_include self))
  then false
  else true.

(** [_should_download_file_type] (lines 403-409) *)
Definition _should_download_file_type (self : DownloadLibrary)
    (ext : string) : bool :=
  let ext := PyStr.lower ext in
  if nonempty (ext_include self) then PyStr.mem ext (ext_include self)
  else if nonempty (ext_exclude self)
       then negb (PyStr.mem ext (ext_exclude self))
       else true.

(** [url.split('?')[0].split('/')[-1]] (line 300) *)
Definition url_filename_of (url : string) : string :=
  PyStr.split_last "/" (PyStr.split_first "?" url).

(** [download['url']['web'].split('/')[-1]] (line 174) *)
Definition web_name_of (download : TroveDownload) : string :=
  PyStr.split_last "/" (url_web download).

Section Run.

Variable env : Env.

(** [_process_download] (lines 345-380) *)
Definition _process_download (self : DownloadLibrary) (open_r : Response)
    (cache_data : CsvCacheData) (local_filename : string)
    (rename_date_str : option string) (multiprocess_queue : option Queue)
    : M unit :=
  try_except_else_finally
    ((if PyStr.truthy_opt rename_date_str
      then rename_old_file local_filename (default "" rename_date_str)
      else ret tt) ;;
     download_file open_r local_filename (progress_bar self))
    (fun e => is_Exception e || is_KeyboardInterrupt e)
    (fun e =>
       (* Clean up broken downloaded file *)
       try_pass (os_remove local_filename) is_OSError ;;
       if is_KeyboardInterrupt e then sys_exit else ret tt)
    (fun _ =>
       let cache_data := set_local_modified_date cache_data (now env) in
       queue_put multiprocess_queue cache_data)
    (* Since it's a stream connection, make sure to close it *)
    (emit EvClose).

(** The body of the innermost loop of [_process_product]
    (lines 291-343): one content type of one file type. *)
Definition process_content_type (self : DownloadLibrary)
    (order_id product_folder : string) (file_type : FileType)
    (multiprocess_queue : option Queue) (content_type : string) : M unit :=
  match ft_url file_type !! content_type with
  | None => ret tt                     (* KeyError: continue *)
  | Some url =>
      let url_filename := url_filename_of url in
      let ext := PyStr.split_last "." url_filename in
      if negb (_should_download_file_type self ext) then ret tt
      else
        let local_filename := os_path_join product_folder url_filename in
        let cache_file_info :=
          get_cache_item (cache_data_csv self) order_id url_filename
            false in
        if contains (cache_data_csv self) cache_file_info
           && negb (update self)
        then ret tt    (* We have the file, and don't want to update. *)
        else
          let cache_file_info :=
            set_md5 cache_file_info (ft_md5 file_type) in
          emit (EvGet url) ;;
          match session_get env url with
          | None => ret tt             (* Failed to download *)
          | Some product_r =>
              if negb (Nat.eqb (status_code product_r) 200) then ret tt
              else
                match last_modified product_r with
                | None => raise KeyError
                | Some header =>
                    if bool_decide
                         (Some header
                          <> remote_modified_date cache_file_info)
                    then
                      last_modified <-
                        match remote_modified_date cache_file_info with
                        | Some d =>
                            match http_date_to_ymd env d with
                            | Some ymd => ret (Some ymd)
                            | None => raise ValueError
                            end
                        | None => ret None
                        end ;;
                      let cache_file_info :=
                        set_remote_modified_date cache_file_info header in
                      _process_download self product_r cache_file_info
                        local_filename last_modified multiprocess_queue
                    else ret tt
                end
          end
  end.

(** The body of the outer loop of [_process_product] (lines 279-343):
    one download type (platform) of the product. *)
Definition process_download_type (self : DownloadLibrary)
    (order_id bundle_title product_title : string)
    (multiprocess_queue : option Queue) (download_type : DownloadType)
    : M unit :=
  if negb (_should_download_platform self (dt_platform download_type))
  then ret tt                          (* Skipping the platform *)
  else
    let product_folder :=
      create_product_folder env bundle_title product_title in
    (* Download each filetype of a product *)
    for_each (download_struct download_type) (fun file_type =>
      for_each (content_types self)
        (process_content_type self order_id product_folder file_type
           multiprocess_queue)).

(** [_process_product] (lines 276-343) *)
Definition _process_product (self : DownloadLibrary)
    (order_id bundle_title : string) (product : Product)
    (multiprocess_queue : option Queue) : M unit :=
  let product_title := _clean_name (human_name product) in
  for_each (downloads product)
    (process_download_type self order_id bundle_title product_title
       multiprocess_queue).

(** [_process_order_id] (lines 254-274) *)
Definition _process_order_id (self : DownloadLibrary) (order_id : string)
    (multiprocess_queue : option Queue) : M unit :=
  emit (EvOrder order_id) ;;
  match get_order env order_id with
  | None => ret tt                     (* Failed to get order key *)
  | Some order =>
      let bundle_title := _clean_name (order_human_name order) in
      for_each (subproducts order) (fun product =>
        _process_product self order_id bundle_title product
          multiprocess_queue)
  end.

(** [_get_trove_download_url] (lines 142-162) *)
Definition _get_trove_download_url (machine_name web_name : string)
    : M (option string) :=
  emit (EvSign machine_name web_name) ;;
  match post_sign env machine_name web_name with
  | None => ret None
  | Some sign_r =>
      if bool_decide (_errors sign_r = Some "Unauthorized")
      then sys_exit
      else match signed_url sign_r with
           | Some url => ret (Some url)
           | None => raise KeyError
           end
  end.

(** [a or b or c] on the three sources of the upload marker. *)
Definition trove_uploaded_at (product : TroveProduct)
    (download : TroveDownload) : string :=
  if PyStr.truthy_opt (td_uploaded_at download)
  then default "" (td_uploaded_at download)
  else if PyStr.truthy_opt (td_timestamp download)
       then default "" (td_timestamp download)
       else default "0" (tp_date_added product).

(** The body of the loop of [_process_trove_product] (lines 165-228):
    one platform of one product. *)
Definition process_trove_download (self : DownloadLibrary)
    (title : string) (product : TroveProduct)
    (item : string * TroveDownload) : M unit :=
  let '(platform, download) := item in
  if negb (_should_download_platform self platform) then ret tt
  else
    let web_name := web_name_of download in
    let ext := PyStr.split_last "." web_name in
    if negb (_should_download_file_type self ext) then ret tt
    else
      let file_info_uploaded_at := trove_uploaded_at product download in
      let file_info_md5 := default "UNKNOWN_MD5" (td_md5 download) in
      let cache_file_info :=
        get_cache_item (cache_data_csv self) "trove" web_name true in
      if contains (cache_data_csv self) cache_file_info
         && negb (update self)
      then ret tt   (* Do not care about checking for updates *)
      else
        if bool_decide
             (Some file_info_uploaded_at
              <> remote_modified_date cache_file_info)
           && bool_decide (Some file_info_md5 <> md5 cache_file_info)
        then
          let cache_file_info :=
            set_remote_modified_date cache_file_info
              file_info_uploaded_at in
          let cache_file_info :=
            set_md5 cache_file_info (Some file_info_md5) in
          let product_folder :=
            create_product_folder env "Humble Trove" title in
          let local_filepath := os_path_join product_folder web_name in
          signed_url <-
            _get_trove_download_url (td_machine_name download) web_name ;;
          match signed_url with
          | None => ret tt             (* Failed to get signed url *)
          | Some signed_url =>
              emit (EvGet signed_url) ;;
              match session_get env signed_url with
              | None => ret tt         (* Failed to get trove product *)
              | Some product_r =>
                  uploaded_at <-
                    match remote_modified_date cache_file_info with
                    | Some d =>
                        match epoch_to_ymd env d with
                        | Some ymd => ret (Some ymd)
                        | None => raise (epoch_error env d)
                        end
                    | None => ret None
                    end ;;
                  _process_download self product_r cache_file_info
                    local_filepath uploaded_at None
              end
          end
        else ret tt.

(** [_process_trove_product] (lines 164-228) *)
Definition _process_trove_product (self : DownloadLibrary)
    (title : string) (product : TroveProduct) : M unit :=
  for_each (tp_downloads product)
    (process_trove_download self title product).

(** The trove branch of [start] (lines 105-109), on the products that
    [_get_trove_products] returned. *)
Definition start_trove (self : DownloadLibrary)
    (trove_products : list TroveProduct) : M unit :=
  for_each trove_products (fun product =>
    let title := _clean_name (tp_human_name product) in
    _process_trove_product self title product).

End Run.

(** ** Vocabulary of the statements *)

(** The keys [_process_product] looks up for a product: one per download
    type, file type and content type that has a URL. *)
Definition product_filenames (self : DownloadLibrary) (product : Product)
    : list string :=
  download_type ← downloads product;
  file_type ← download_struct download_type;
  content_type ← content_types self;
  match ft_url file_type !! content_type with
  | Some url => [url_filename_of url]
  | None => []
  end.

(** The keys [_process_trove_product] looks up for a product. *)
Definition trove_filenames (product : TroveProduct) : list string :=
  map (fun item => web_name_of item.2) (tp_downloads product).

Definition cached (c : Cache) (order_id : string) (filename : string)
    : Prop :=
  is_Some (c !! (order_id, filename)).

(** ** Worked scenarios *)

(** An environment in which every request fails. *)
Definition offline_env : Env :=
  mkEnv (fun _ => None) (fun _ => None) (fun _ _ => None)
    (fun bundle product => "lib/" +:+ bundle +:+ "/" +:+ product)
    (fun _ => None) (fun _ => None) "04 Nov 2026 12:00:00 "
    (fun _ => ValueError).

Definition zip_file_type : FileType :=
  mkFileType {["web" := "https://dl.example/ORD1901/game.ZIP?key=1"]}
    (Some "1 MB") (Some "aaaa").

(** The scenario of section 8 of the spec: order [ORD1901] with the file
    [game.zip], and one trove product. The remote side answers with the
    modification token [header], the byte stream [stream] and the signing
    response [sign_r]. *)
Definition game_url : string := "https://dl.example/ORD1901/game.zip?key=1".

Definition game_file_type : FileType :=
  mkFileType {["web" := game_url]} (Some "1 MB") (Some "bbbb").

Definition game_order : Order :=
  mkOrder "Bundle+"
    [mkProduct "Game: One" [mkDownloadType "windows" [game_file_type]]].

Definition old_token : string := "Sun, 01 Jan 2023 00:00:00 GMT".
Definition new_token : string := "Thu, 01 Jun 2023 00:00:00 GMT".

Definition signed_game_url : string :=
  "https://dl.example/signed/BS5_v2.2.1-win32.zip?sig=1".

Definition trove_download : TroveDownload :=
  mkTroveDownload "revolutionsoftware/BS5_v2.2.1-win32.zip"
    (Some "1685577600") None (Some "bbbb") "brokensword5_windows".

Definition trove_product : TroveProduct :=
  mkTroveProduct "Broken Sword 5" [("windows", trove_download)]
    (Some "1500000000").

Definition other_trove_product : TroveProduct :=
  mkTroveProduct "Another Game"
    [("windows",
      mkTroveDownload "another.zip" (Some "1685577600") None (Some "cccc")
        "another_windows")]
    None.

Definition scenario_env (header : string) (stream : list piece)
    (sign_r : option SignResponse) : Env :=
  mkEnv
    (fun order_id =>
       if String.eqb order_id "ORD1901" then Some game_order else None)
    (fun url =>
       if String.eqb url game_url || String.eqb url signed_game_url
       then Some (mkResponse 200 (Some header) stream)
       else None)
    (fun _ _ => sign_r)
    (fun bundle product => "lib/" +:+ bundle +:+ "/" +:+ product)
    (fun d =>
       if String.eqb d old_token then Some "2023-01-01"
       else if String.eqb d new_token then Some "2023-06-01"
       else None)
    (fun d =>
       if String.eqb d "1672531200" then Some "2023-01-01"
       else if String.eqb d "1685577600" then Some "2023-06-01"
       else None)
    "04 Nov 2026 12:00:00 "
    (fun _ => ValueError).

(** The store after a first run: [game.zip] of the order and the trove
    file, both at their January revision. *)
Definition scenario_cache : Cache :=
  {[ ("ORD1901", "game.zip") :=
       mkMetadata (Some "aaaa") (Some old_token)
         (Some "01 Jan 2023 10:00:00 ");
     ("trove", "BS5_v2.2.1-win32.zip") :=
       mkMetadata (Some "aaaa") (Some "1672531200")
         (Some "01 Jan 2023 10:00:00 ") ]}.

Definition scenario_self (update : bool) : DownloadLibrary :=
  __init__ scenario_cache false None None None ["ORD1901"] false update None.

Definition game_path : string := "lib/Bundle_/Game - One/game.zip".

Definition trove_path : string :=
  "lib/Humble Trove/Broken Sword 5/BS5_v2.2.1-win32.zip".

(** The disk after a first run. *)
Definition scenario_fs : FS :=
  {[ game_path := "old game"; trove_path := "old trove" ]}.

Definition signed_ok : option SignResponse :=
  Some (mkSignResponse None (Some signed_game_url)).

Definition signed_unauthorized : option SignResponse :=
  Some (mkSignResponse (Some "Unauthorized") None).

(** The disk and the trace after the rename step of [_process_download]
    (lines 348-349). *)
Definition after_rename (local_filename : string)
    (rename_date_str : option string) (fs : FS) : FS * list event :=
  if PyStr.truthy_opt rename_date_str then
    let date := default "" rename_date_str in
    match fs !! local_filename with
    | Some old =>
        (<[dated_name local_filename date := old]> (delete local_filename fs),
         [EvRename local_filename date])
    | None => (fs, [EvRename local_filename date])
    end
  else (fs, []).

(** The exceptions the handler of [_process_download] catches. *)
Definition caught (e : exn) : bool :=
  is_Exception e || is_KeyboardInterrupt e.

Definition is_put (ev : event) : bool :=
  match ev with EvPut _ => true | _ => false end.

(** A run that stops at a fatal call: either no call of its trace is
    fatal, or the trace ends with the first fatal call [ev] followed by
    [after ev] and the run ends with [SystemExit], [post ev] holding of the
    disk. *)
Section Stops.
Variable fatal : event -> bool.
Variable after : event -> list event.
Variable post : event -> FS -> Prop.

Definition quiet (t : list event) : Prop :=
  forallb (fun ev => negb (fatal ev)) t = true.

Definition stops_at {A} (x : result A * FS * list event) : Prop :=
  let '(r, fs, t) := x in
  quiet t \/
  exists l ev,
    t = l ++ ev :: after ev /\ quiet l /\ fatal ev = true /\
    quiet (after ev) /\ r = Raise SystemExit /\ post ev fs.

Definition obeys {A} (m : M A) : Prop := forall fs, stops_at (m fs).
End Stops.

(** The signing request for this file is answered "Unauthorized". *)
Definition unauthorized (env : Env) (machine_name web_name : string)
    : bool :=
  match post_sign env machine_name web_name with
  | Some sign_r => bool_decide (_errors sign_r = Some "Unauthorized")
  | None => false
  end.

Definition fatal_sign (env : Env) (ev : event) : bool :=
  match ev with
  | EvSign machine_name web_name => unauthorized env machine_name web_name
  | _ => false
  end.

(** A download that a keyboard interrupt cut, and what follows it. *)
Definition interrupted (ev : event) : bool :=
  match ev with
  | EvDownload _ (Some KeyboardInterrupt) => true
  | _ => false
  end.

Definition after_interrupt (ev : event) : list event :=
  match ev with
  | EvDownload path _ => [EvRemove path; EvClose]
  | _ => []
  end.

Definition gone_after_interrupt (ev : event) (fs : FS) : Prop :=
  match ev with
  | EvDownload path _ => fs !! path = None
  | _ => True
  end.

(** ** [TimeoutHTTPAdapter] (lines 33-50) *)

(** The values keyword arguments carry: [None], a number of seconds, or
    some other object (a [Retry] policy, a flag). *)
Inductive pyval :=
| PyNone
| PyNum (seconds : nat)
| PyObj (name : string).

Definition DEFAULT_TIMEOUT : pyval := PyNum 5.

(** An adapter: its [timeout], and the keywords [__init__] hands on to
    [HTTPAdapter.__init__]. *)
Record TimeoutHTTPAdapter := mkTimeoutHTTPAdapter {
  timeout : pyval;
  super_kwargs : gmap string pyval
}.

(** [TimeoutHTTPAdapter.__init__] (lines 39-44) *)
Definition adapter_init (kwargs : gmap string pyval) : TimeoutHTTPAdapter :=
  match kwargs !! "timeout" with
  | Some t => mkTimeoutHTTPAdapter t (delete "timeout" kwargs)
  | None => mkTimeoutHTTPAdapter DEFAULT_TIMEOUT kwargs
  end.

(** [kwargs.get(k)] *)
Definition kwargs_get (kwargs : gmap string pyval) (k : string) : pyval :=
  default PyNone (kwargs !! k).

(** [TimeoutHTTPAdapter.send] (lines 46-50): the keywords that reach
    [HTTPAdapter.send]. *)
Definition adapter_send (self : TimeoutHTTPAdapter)
    (kwargs : gmap string pyval) : gmap string pyval :=
  match kwargs_get kwargs "timeout" with
  | PyNone => <["timeout" := timeout self]> kwargs
  | _ => kwargs
  end.

(** ** [_get_trove_products] (lines 230-252) *)

(** The loop of [_get_trove_products]: [catalog idx] is the JSON of page
    [idx], or [None] when the request raises. The loop has no bound of its
    own; [fuel] counts the pages it may still request and [None] is a run
    out of fuel. *)
Fixpoint get_trove_products_from (catalog : nat -> option (list TroveProduct))
    (fuel idx : nat) (trove_products : list TroveProduct)
    : option (list TroveProduct) :=
  match fuel with
  | O => None
  | S fuel' =>
      match catalog idx with
      | None => Some []          (* Failed to get products: return [] *)
      | Some page_content =>
          if Nat.eqb (length page_content) 0 then Some trove_products
          else get_trove_products_from catalog fuel' (S idx)
                 (trove_products ++ page_content)
      end
  end.

Definition _get_trove_products (catalog : nat -> option (list TroveProduct))
    (fuel : nat) : option (list TroveProduct) :=
  get_trove_products_from catalog fuel 0 [].

(** The pages [from], ..., [from + n - 1] of the catalog, in order. *)
Definition pages_of (catalog : nat -> option (list TroveProduct))
    (from n : nat) : list TroveProduct :=
  flat_map (fun idx => default [] (catalog idx)) (seq from n).

(** Page [idx] is served and has products. *)
Definition full_page (catalog : nat -> option (list TroveProduct))
    (idx : nat) : Prop :=
  exists page_content, catalog idx = Some page_content /\ page_content <> [].

(** ** More vocabulary *)

(** No call of the trace is of the kind [fatal]. *)
Definition silent {A} (fatal : event -> bool) (m : M A) : Prop :=
  forall fs, quiet fatal (m fs).2.

(** A run that halts at a call of the kind [fatal] with the exception
    [stop]: as [stops_at], for any exception. *)
Definition halts_at {A} (stop : exn) (fatal : event -> bool)
    (after : event -> list event) (x : result A * FS * list event) : Prop :=
  let '(r, _, t) := x in
  quiet fatal t \/
  exists l ev,
    t = l ++ ev :: after ev /\ quiet fatal l /\ fatal ev = true /\
    quiet fatal (after ev) /\ r = Raise stop.

Definition halts {A} (stop : exn) (fatal : event -> bool)
    (after : event -> list event) (m : M A) : Prop :=
  forall fs, halts_at stop fatal after (m fs).

(** A download that went through. *)
Definition written (ev : event) : bool :=
  match ev with
  | EvDownload _ None => true
  | _ => false
  end.

Definition after_written (ev : event) : list event := [EvClose].

(** The products and pages of a small catalog. *)
Definition scenario_catalog (idx : nat) : option (list TroveProduct) :=
  match idx with
  | 0 => Some [trove_product]
  | 1 => Some [other_trove_product]
  | _ => Some []
  end.

Definition broken_catalog (idx : nat) : option (list TroveProduct) :=
  match idx with
  | 0 => Some [trove_product]
  | _ => None
  end.

(** The first, the last character of a string is of the kind [p]. *)
Definition begins_with (p : ascii -> bool) (s : string) : bool :=
  match PyStr.head s with Some c => p c | None => false end.

Definition ends_with (p : ascii -> bool) (s : string) : bool :=
  match PyStr.last s with Some c => p c | None => false end.

Definition is_dot (c : ascii) : bool := Ascii.eqb "." c.

(** The file is asked for: it has a URL, passes the extension filter, and
    is either new to the store or re-checked by force. *)
Definition asked_for (self : DownloadLibrary) (order_id : string)
    (ft : FileType) (ct url : string) : Prop :=
  ft_url ft !! ct = Some url /\
  _should_download_file_type self
    (PyStr.split_last "." (url_filename_of url)) = true /\
  (cache_data_csv self !! (order_id, url_filename_of url) = None
   \/ update self = true).

(** A server that answers 200 without a [Last-Modified] header, and a
    store whose token for [game.zip] is no HTTP date. *)
Definition headerless_env : Env :=
  mkEnv (fun _ => Some game_order)
    (fun _ => Some (mkResponse 200 None [Chunk "new game"]))
    (fun _ _ => None)
    (fun bundle product => "lib/" +:+ bundle +:+ "/" +:+ product)
    (fun _ => None) (fun _ => None) "04 Nov 2026 12:00:00 "
    (fun _ => ValueError).

Definition unparsable_cache : Cache :=
  {[ ("ORD1901", "game.zip") :=
       mkMetadata (Some "aaaa") (Some "1672531200") None ]}.

(** The trove file is to be downloaded: platform and extension pass the
    filters, the file is new to the store or re-checked by force, and both
    its upload marker and its md5 differ from the stored ones. *)
Definition trove_asked_for (self : DownloadLibrary) (product : TroveProduct)
    (platform : string) (download : TroveDownload) : Prop :=
  let cache_file_info :=
    get_cache_item (cache_data_csv self) "trove" (web_name_of download)
      true in
  _should_download_platform self platform = true /\
  _should_download_file_type self
    (PyStr.split_last "." (web_name_of download)) = true /\
  (cache_data_csv self !! ("trove", web_name_of download) = None
   \/ update self = true) /\
  Some (trove_uploaded_at product download)
  <> remote_modified_date cache_file_info /\
  Some (default "UNKNOWN_MD5" (td_md5 download)) <> md5 cache_file_info.


(** * Properties *)

(** ** Strings *)

Module PyStrFacts.
Import PyStr.

Lemma all_keep p s : all p (keep p s) = true.
Proof.
  induction s as [|c s IH]; simpl; [done|].
  destruct (p c) eqn:Hc; simpl; [by rewrite Hc|done].
Qed.

Lemma keep_all p s : all p s = true -> keep p s = s.
Proof.
  induction s as [|c s IH]; simpl; [done|].
  intros [Hc Hs]%andb_prop. rewrite Hc. by rewrite IH.
Qed.

Lemma replace_absent old new s :
  all (fun c => negb (Ascii.eqb c old)) s = true -> replace old new s = s.
Proof.
  induction s as [|c s IH]; simpl; [done|].
  intros [Hc Hs]%andb_prop. apply negb_true_iff in Hc. rewrite Hc.
  by rewrite IH.
Qed.

Lemma all_weaken (p q : ascii -> bool) s :
  (forall c, p c = true -> q c = true) -> all p s = true -> all q s = true.
Proof.
  intros Hpq. induction s as [|c s IH]; simpl; [done|].
  intros [Hc Hs]%andb_prop. by rewrite (Hpq _ Hc), IH.
Qed.

Lemma all_lstrip_by p q s : all p s = true -> all p (lstrip_by q s) = true.
Proof.
  induction s as [|c s IH]; simpl; [done|].
  intros [Hc Hs]%andb_prop. destruct (q c); [auto|].
  simpl. by rewrite Hc, Hs.
Qed.

Lemma all_rstrip_by p q s : all p s = true -> all p (rstrip_by q s) = true.
Proof.
  induction s as [|c s IH]; simpl; [done|].
  intros [Hc Hs]%andb_prop. specialize (IH Hs).
  destruct (rstrip_by q s) as [|c' r].
  - destruct (q c); simpl; [done|by rewrite Hc].
  - change (all p (String c (String c' r)) = true).
    simpl in *. by rewrite Hc, IH.
Qed.

Lemma all_last p s c : all p s = true -> last s = Some c -> p c = true.
Proof.
  induction s as [|a s IH]; simpl; [done|].
  intros [Ha Hs]%andb_prop. destruct s as [|b s]; [congruence|auto].
Qed.

Lemma rstrip_by_fixed p s : right_clean p s -> rstrip_by p s = s.
Proof.
  unfold right_clean. induction s as [|c s IH]; simpl; [done|].
  intros Hl. destruct s as [|b s].
  - simpl. by rewrite (Hl c eq_refl).
  - rewrite IH by exact Hl. done.
Qed.

Lemma rstrip_by_right_clean p s : right_clean p (rstrip_by p s).
Proof.
  unfold right_clean. induction s as [|c s IH]; simpl; [done|].
  destruct (rstrip_by p s) as [|b r] eqn:Hr.
  - destruct (p c) eqn:Hc; simpl; [done|]. intros ? [= <-]. done.
  - intros c' Hc'. apply IH. exact Hc'.
Qed.

Lemma rstrip_by_idemp p s : rstrip_by p (rstrip_by p s) = rstrip_by p s.
Proof. apply rstrip_by_fixed, rstrip_by_right_clean. Qed.

Lemma lstrip_by_fixed p s : left_clean p s -> lstrip_by p s = s.
Proof.
  unfold left_clean. destruct s as [|c s]; simpl; [done|].
  intros Hh. by rewrite (Hh c eq_refl).
Qed.

Lemma lstrip_by_left_clean p s : left_clean p (lstrip_by p s).
Proof.
  unfold left_clean. induction s as [|c s IH]; simpl; [done|].
  destruct (p c) eqn:Hc; [exact IH|]. simpl. by intros ? [= <-].
Qed.

Lemma rstrip_by_left_clean p q s :
  left_clean p s -> left_clean p (rstrip_by q s).
Proof.
  unfold left_clean. destruct s as [|c s]; simpl; [done|].
  intros Hh. destruct (rstrip_by q s).
  - destruct (q c); simpl; [done|]. intros ? [= <-]. by apply Hh.
  - simpl. intros ? [= <-]. by apply Hh.
Qed.

Lemma length_rstrip_by p s :
  String.length (rstrip_by p s) <= String.length s.
Proof.
  induction s as [|c s IH]; simpl; [lia|].
  destruct (rstrip_by p s); [destruct (p c)|]; simpl in *; lia.
Qed.

Lemma length_lstrip_by p s :
  String.length (lstrip_by p s) <= String.length s.
Proof.
  induction s as [|c s IH]; simpl; [lia|].
  destruct (p c); simpl; lia.
Qed.

Lemma length_rstrip_by_lt p s c :
  last s = Some c -> p c = true ->
  String.length (rstrip_by p s) < String.length s.
Proof.
  induction s as [|a s IH]; simpl; [done|].
  destruct s as [|b s].
  - intros [= ->] ->. simpl. lia.
  - intros Hl Hc. specialize (IH Hl Hc).
    destruct (rstrip_by p (String b s)); [destruct (p a)|];
      simpl in *; lia.
Qed.

End PyStrFacts.

(** ** [_clean_name] *)

Section CleanName.
Import PyStr PyStrFacts.

Lemma clean_keeps_not_plus c :
  clean_keeps c = true -> negb (Ascii.eqb c "+") = true.
Proof.
  destruct c as [[] [] [] [] [] [] [] []]; vm_compute; congruence.
Qed.

Lemma clean_keeps_not_colon c :
  clean_keeps c = true -> negb (Ascii.eqb c ":") = true.
Proof.
  destruct c as [[] [] [] [] [] [] [] []]; vm_compute; congruence.
Qed.

(** The only white space that survives the filter is the blank. *)
Lemma clean_keeps_space c :
  clean_keeps c = true -> isspace c = true -> c = " "%char.
Proof.
  destruct c as [[] [] [] [] [] [] [] []]; vm_compute; congruence.
Qed.

Lemma clean_name_all_kept s : all clean_keeps (_clean_name s) = true.
Proof.
  unfold _clean_name, rstrip, strip.
  apply all_rstrip_by, all_rstrip_by, all_lstrip_by, all_keep.
Qed.

Lemma clean_name_left_clean s : left_clean isspace (_clean_name s).
Proof.
  unfold _clean_name, rstrip, strip.
  apply rstrip_by_left_clean, rstrip_by_left_clean, lstrip_by_left_clean.
Qed.

Lemma clean_name_of_kept y :
  all clean_keeps y = true ->
  _clean_name y = rstrip "." (strip y).
Proof.
  intros Hy. unfold _clean_name.
  rewrite (replace_absent "+" "_" y)
    by (eapply all_weaken; [apply clean_keeps_not_plus|exact Hy]).
  rewrite (replace_absent ":" " -" y)
    by (eapply all_weaken; [apply clean_keeps_not_colon|exact Hy]).
  by rewrite keep_all.
Qed.

End CleanName.

(** C10 (as stated, refuted). Cleaning ["a ."] gives ["a "], whose blank
    the second pass strips: [_clean_name] applied twice differs from
    [_clean_name] applied once. *)
Lemma clean_name_twice_differs :
  _clean_name "a ." = "a " /\
  _clean_name (_clean_name "a .") = "a" /\
  _clean_name (_clean_name "a .") <> _clean_name "a .".
Proof. repeat split. vm_compute. discriminate. Qed.

(** C10 (amended). For every string [s], the output of [_clean_name]
    contains only characters that are alphabetic, digits, or one of blank,
    underscore, period, hyphen, left bracket, right bracket; and
    [_clean_name (_clean_name s) = _clean_name s] holds exactly when
    [_clean_name s] does not end in a blank. *)
Theorem clean_name_charset_and_fixpoint (s : string) :
  PyStr.all clean_keeps (_clean_name s) = true /\
  (_clean_name (_clean_name s) = _clean_name s <->
   PyStr.last (_clean_name s) <> Some " "%char).
Proof.
  split; [apply clean_name_all_kept|].
  pose proof (clean_name_all_kept s) as Hall.
  pose proof (clean_name_left_clean s) as Hleft.
  rewrite (clean_name_of_kept _ Hall).
  set (y := _clean_name s) in *. split.
  - intros Heq Hlast.
    pose proof (PyStrFacts.length_rstrip_by (Ascii.eqb ".")
                  (PyStr.strip y)) as H1.
    pose proof (PyStrFacts.length_lstrip_by PyStr.isspace y) as H2.
    pose proof (PyStrFacts.lstrip_by_fixed _ _ Hleft) as Hl.
    unfold PyStr.rstrip, PyStr.strip in *. rewrite Hl in *.
    pose proof (PyStrFacts.length_rstrip_by_lt PyStr.isspace y " "
                  Hlast eq_refl) as H3.
    rewrite Heq in H1. lia.
  - intros Hlast. unfold PyStr.strip.
    rewrite (PyStrFacts.lstrip_by_fixed _ _ Hleft).
    rewrite PyStrFacts.rstrip_by_fixed.
    + subst y. unfold _clean_name at 1, PyStr.rstrip.
      unfold _clean_name. apply PyStrFacts.rstrip_by_idemp.
    + intros c Hc. destruct (PyStr.isspace c) eqn:Hsp; [|done].
      exfalso. apply Hlast. rewrite Hc. f_equal.
      apply clean_keeps_space; [|done].
      by apply (PyStrFacts.all_last _ y).
Qed.

(** C10, the amended statement at ["Foo: Bar+Baz!? "]. *)
Lemma clean_name_charset_and_fixpoint_witness :
  PyStr.last (_clean_name "Foo: Bar+Baz!? ") <> Some " "%char /\
  _clean_name (_clean_name "Foo: Bar+Baz!? ") = _clean_name "Foo: Bar+Baz!? ".
Proof.
  assert (H : PyStr.last (_clean_name "Foo: Bar+Baz!? ") <> Some " "%char)
    by (vm_compute; discriminate).
  split; [exact H|].
  apply (proj2 (proj2 (clean_name_charset_and_fixpoint "Foo: Bar+Baz!? "))),
    H.
Defined.

Example clean_name_ex1 : _clean_name "Foo: Bar+Baz!? " = "Foo - Bar_Baz".
Proof. reflexivity. Qed.

Example clean_name_ex2 : _clean_name "  v1.2...  " = "v1.2".
Proof. reflexivity. Qed.

Example split_ex1 :
  PyStr.split_last "/" (PyStr.split_first "?" "https://dl/x/game.zip?k=1/2")
  = "game.zip".
Proof. reflexivity. Qed.

Example split_ex2 : PyStr.split_last "." "game.tar.GZ" = "GZ".
Proof. reflexivity. Qed.

Example split_ex3 : PyStr.split_last "." "README" = "README".
Proof. reflexivity. Qed.

Example lower_ex : PyStr.lower "ZiP" = "zip".
Proof. reflexivity. Qed.

Example dated_name_ex :
  dated_name "lib/ORD1901/game.zip" "2023-01-01"
  = "lib/ORD1901/game [2023-01-01].zip".
Proof. reflexivity. Qed.

Example os_path_join_ex : os_path_join "lib/Bundle/Game" "game.zip"
  = "lib/Bundle/Game/game.zip".
Proof. reflexivity. Qed.

(** ** The effect monad *)

Lemma bind_ok {A B} (m : M A) (f : A -> M B) fs a fs1 t1 :
  m fs = (Ok a, fs1, t1) ->
  bind m f fs = (let '(r, fs2, t2) := f a fs1 in (r, fs2, t1 ++ t2)).
Proof. unfold bind. intros ->. by destruct (f a fs1) as [[? ?] ?]. Qed.

Lemma bind_raise {A B} (m : M A) (f : A -> M B) fs e fs1 t1 :
  m fs = (Raise e, fs1, t1) -> bind m f fs = (Raise e, fs1, t1).
Proof. unfold bind. by intros ->. Qed.

(** A loop whose every body is skipped does nothing. *)
Lemma for_each_skipped {A} (l : list A) (body : A -> M unit) fs :
  (forall x, x ∈ l -> body x fs = (Ok tt, fs, [])) ->
  for_each l body fs = (Ok tt, fs, []).
Proof.
  induction l as [|x l IH]; intros Hb; simpl; [done|].
  rewrite (bind_ok _ _ _ _ _ _ (Hb x ltac:(left))).
  rewrite IH; [done|]. intros y Hy. apply Hb. by right.
Qed.

(** ** The filters (C9) *)

Section Filters.
Variable env : Env.

Lemma init_file_type loaded pb inc exc plat keys tr upd cts ext :
  _should_download_file_type
    (__init__ loaded pb inc exc plat keys tr upd cts) ext
  = match inc with
    | Some (x :: l) =>
        PyStr.mem (PyStr.lower ext) (map PyStr.lower (x :: l))
    | _ =>
        match exc with
        | Some (y :: l) =>
            negb (PyStr.mem (PyStr.lower ext) (map PyStr.lower (y :: l)))
        | _ => true
        end
    end.
Proof.
  unfold _should_download_file_type, __init__; simpl.
  destruct inc as [[|x l]|]; destruct exc as [[|y l']|]; reflexivity.
Qed.

Lemma init_platform loaded pb inc exc plat keys tr upd cts platform :
  _should_download_platform
    (__init__ loaded pb inc exc plat keys tr upd cts) platform
  = match plat with
    | Some (x :: l) =>
        PyStr.mem "all" (x :: l)
        || PyStr.mem (PyStr.lower platform) (map PyStr.lower (x :: l))
    | _ => true
    end.
Proof.
  unfold _should_download_platform, __init__.
  destruct plat as [[|x l]|]; try reflexivity.
  cbn [platform_include].
  destruct (PyStr.mem "all" (x :: l)); [reflexivity|].
  cbn [orb nonempty map andb].
  by destruct (PyStr.mem _ _).
Qed.

Lemma file_type_excluded_order self order_id folder ft mq ct url fs :
  ft_url ft !! ct = Some url ->
  _should_download_file_type self
    (PyStr.split_last "." (url_filename_of url)) = false ->
  process_content_type env self order_id folder ft mq ct fs
  = (Ok tt, fs, []).
Proof. intros Hu Hf. unfold process_content_type. by rewrite Hu, Hf. Qed.

Lemma file_type_excluded_trove self title product platform download fs :
  _should_download_file_type self
    (PyStr.split_last "." (web_name_of download)) = false ->
  process_trove_download env self title product (platform, download) fs
  = (Ok tt, fs, []).
Proof.
  intros Hf. unfold process_trove_download. rewrite Hf.
  by destruct (negb _).
Qed.

Lemma platform_excluded_order self order_id bundle title mq dt fs :
  _should_download_platform self (dt_platform dt) = false ->
  process_download_type env self order_id bundle title mq dt fs
  = (Ok tt, fs, []).
Proof. intros Hp. unfold process_download_type. by rewrite Hp. Qed.

Lemma platform_excluded_trove self title product platform download fs :
  _should_download_platform self platform = false ->
  process_trove_download env self title product (platform, download) fs
  = (Ok tt, fs, []).
Proof. intros Hp. unfold process_trove_download. by rewrite Hp. Qed.

End Filters.

(** C9. Let [self] be built by [__init__]. (1) With [ext_include] absent or
    empty, a file whose lower-cased extension is in the lower-cased
    [ext_exclude] is skipped with no call to the outside, in the order path
    and in the trove path. (2) With a non-empty [platform_include] that has
    no ['all'], a platform whose lower-cased name is not in the lower-cased
    list is skipped with no call to the outside, in both paths. (3) A
    [platform_include] that is absent, empty or contains ['all'] lets every
    platform through. (4) With a non-empty [ext_include], the decision is
    membership of the lower-cased extension in the lower-cased
    [ext_include], whatever [ext_exclude] holds. *)
Theorem filter_correctness (env : Env) (loaded : Cache) (pb : bool)
    (inc exc plat : option (list string)) (keys : list string)
    (tr upd : bool) (cts : option (list string)) :
  let self := __init__ loaded pb inc exc plat keys tr upd cts in
  (forall excluded ext,
     inc = None \/ inc = Some [] ->
     exc = Some excluded ->
     PyStr.mem (PyStr.lower ext) (map PyStr.lower excluded) = true ->
     (forall order_id folder ft mq ct url fs,
        ft_url ft !! ct = Some url ->
        PyStr.split_last "." (url_filename_of url) = ext ->
        process_content_type env self order_id folder ft mq ct fs
        = (Ok tt, fs, [])) /\
     (forall title product platform download fs,
        PyStr.split_last "." (web_name_of download) = ext ->
        process_trove_download env self title product (platform, download) fs
        = (Ok tt, fs, []))) /\
  (forall included platform,
     plat = Some included ->
     included <> [] ->
     PyStr.mem "all" included = false ->
     PyStr.mem (PyStr.lower platform) (map PyStr.lower included) = false ->
     (forall order_id bundle title mq dt fs,
        dt_platform dt = platform ->
        process_download_type env self order_id bundle title mq dt fs
        = (Ok tt, fs, [])) /\
     (forall title product download fs,
        process_trove_download env self title product (platform, download) fs
        = (Ok tt, fs, []))) /\
  (forall platform,
     plat = None \/ plat = Some [] \/
     (exists included, plat = Some included /\
                       PyStr.mem "all" included = true) ->
     _should_download_platform self platform = true) /\
  (forall included ext,
     inc = Some included ->
     included <> [] ->
     _should_download_file_type self ext
     = PyStr.mem (PyStr.lower ext) (map PyStr.lower included)).
Proof.
  intros self. repeat split.
  - intros order_id folder ft mq ct url fs Hu He.
    apply (file_type_excluded_order _ _ _ _ _ _ _ url); [done|]. rewrite He.
    unfold self. rewrite init_file_type. subst exc.
    destruct excluded as [|y l]; [done|].
    destruct H as [-> | ->]; by rewrite H1.
  - intros title product platform download fs He.
    apply file_type_excluded_trove. rewrite He.
    unfold self. rewrite init_file_type. subst exc.
    destruct excluded as [|y l]; [done|].
    destruct H as [-> | ->]; by rewrite H1.
  - intros order_id bundle title mq dt fs Hp.
    apply platform_excluded_order. rewrite Hp.
    unfold self. rewrite init_platform. subst plat.
    destruct included as [|x l]; [done|]. by rewrite H1, H2.
  - intros title product download fs.
    apply platform_excluded_trove.
    unfold self. rewrite init_platform. subst plat.
    destruct included as [|x l]; [done|]. by rewrite H1, H2.
  - intros platform Hp. unfold self. rewrite init_platform.
    destruct Hp as [-> | [-> | (l & -> & Hall)]]; try done.
    destruct l as [|x l]; [done|]. by rewrite Hall.
  - intros included ext -> Hne. unfold self. rewrite init_file_type.
    by destruct included.
Qed.

(** C9 at concrete options: [ext_exclude = ['ZIP']] skips [game.ZIP],
    [platform_include = ['Windows']] skips a [linux] download, a list with
    ['all'] lets [mac] through, and [ext_include = ['PDF']] decides alone. *)
Lemma filter_correctness_witness :
  let self :=
    __init__ ∅ false None (Some ["ZIP"]) (Some ["Windows"]) [] false false
      None in
  process_content_type offline_env self "ORD1901" "lib" zip_file_type None
    "web" ∅ = (Ok tt, ∅, []) /\
  process_download_type offline_env self "ORD1901" "Bundle" "Game" None
    (mkDownloadType "linux" [zip_file_type]) ∅ = (Ok tt, ∅, []) /\
  _should_download_platform
    (__init__ ∅ false None None (Some ["mac"; "all"]) [] false false None)
    "linux" = true /\
  _should_download_file_type
    (__init__ ∅ false (Some ["PDF"]) (Some ["pdf"]) None [] false false None)
    "pdf" = true.
Proof.
  intros self. split; [|split; [|split]].
  - pose proof (filter_correctness offline_env ∅ false None (Some ["ZIP"])
                  (Some ["Windows"]) [] false false None) as (H & _).
    destruct (H ["ZIP"] "ZIP" (or_introl eq_refl) eq_refl eq_refl)
      as [Horder _].
    exact (Horder "ORD1901" "lib" zip_file_type None "web"
             "https://dl.example/ORD1901/game.ZIP?key=1" ∅
             eq_refl eq_refl).
  - pose proof (filter_correctness offline_env ∅ false None (Some ["ZIP"])
                  (Some ["Windows"]) [] false false None) as (_ & H & _).
    destruct (H ["Windows"] "linux" eq_refl ltac:(discriminate) eq_refl
                eq_refl) as [Horder _].
    exact (Horder "ORD1901" "Bundle" "Game" None
             (mkDownloadType "linux" [zip_file_type]) ∅ eq_refl).
  - pose proof (filter_correctness offline_env ∅ false None None
                  (Some ["mac"; "all"]) [] false false None)
      as (_ & _ & H & _).
    apply H. right; right. exists ["mac"; "all"]. split; reflexivity.
  - pose proof (filter_correctness offline_env ∅ false (Some ["PDF"])
                  (Some ["pdf"]) None [] false false None)
      as (_ & _ & _ & H).
    rewrite (H ["PDF"] "pdf" eq_refl ltac:(discriminate)). reflexivity.
Defined.

(** ** Skipping what the cache already has (C1) *)

Section Skips.
Variable env : Env.

Lemma contains_get_cache_item (c : Cache) order_id fn tr :
  cached c order_id fn ->
  contains c (get_cache_item c order_id fn tr) = true.
Proof.
  intros Hc. unfold contains, get_cache_item, cached in *.
  apply bool_decide_eq_true.
  destruct (c !! (order_id, fn)) as [m|] eqn:Hm; unfold key; simpl.
  - by rewrite Hm.
  - by destruct Hc.
Qed.

Lemma cached_skipped_order self order_id folder ft mq ct fs :
  update self = false ->
  (forall url, ft_url ft !! ct = Some url ->
               cached (cache_data_csv self) order_id (url_filename_of url)) ->
  process_content_type env self order_id folder ft mq ct fs
  = (Ok tt, fs, []).
Proof.
  intros Hu Hc. unfold process_content_type.
  destruct (ft_url ft !! ct) as [url|]; [|done].
  destruct (negb (_should_download_file_type _ _)); [done|].
  by rewrite contains_get_cache_item, Hu by auto.
Qed.

Lemma cached_skipped_trove self title product platform download fs :
  update self = false ->
  cached (cache_data_csv self) "trove" (web_name_of download) ->
  process_trove_download env self title product (platform, download) fs
  = (Ok tt, fs, []).
Proof.
  intros Hu Hc. unfold process_trove_download.
  destruct (negb (_should_download_platform _ _)); [done|].
  destruct (negb (_should_download_file_type _ _)); [done|].
  by rewrite contains_get_cache_item, Hu by auto.
Qed.

Lemma product_filenames_spec self product dt ft ct url :
  dt ∈ downloads product -> ft ∈ download_struct dt ->
  ct ∈ content_types self -> ft_url ft !! ct = Some url ->
  url_filename_of url ∈ product_filenames self product.
Proof.
  intros Hdt Hft Hct Hurl. unfold product_filenames.
  apply list_elem_of_bind. exists dt. split; [|done].
  apply list_elem_of_bind. exists ft. split; [|done].
  apply list_elem_of_bind. exists ct. split; [|done].
  rewrite Hurl. by left.
Qed.

Lemma cached_product_skipped self order_id bundle product mq fs :
  update self = false ->
  Forall (cached (cache_data_csv self) order_id)
    (product_filenames self product) ->
  _process_product env self order_id bundle product mq fs
  = (Ok tt, fs, []).
Proof.
  intros Hu Hall. rewrite Forall_forall in Hall.
  unfold _process_product. apply for_each_skipped. intros dt Hdt.
  unfold process_download_type.
  destruct (negb (_should_download_platform _ _)); [done|].
  apply for_each_skipped. intros ft Hft.
  apply for_each_skipped. intros ct Hct.
  apply cached_skipped_order; [done|]. intros url Hurl.
  apply Hall. by eapply product_filenames_spec.
Qed.

Lemma cached_trove_product_skipped self title product fs :
  update self = false ->
  Forall (cached (cache_data_csv self) "trove") (trove_filenames product) ->
  _process_trove_product env self title product fs = (Ok tt, fs, []).
Proof.
  intros Hu Hall. rewrite Forall_forall in Hall.
  unfold _process_trove_product. apply for_each_skipped.
  intros [platform download] Hin.
  apply cached_skipped_trove; [done|]. apply Hall.
  unfold trove_filenames. apply list_elem_of_fmap.
  by exists (platform, download).
Qed.

End Skips.

(** C1. With the force-update option off: (1) in the order path, a file
    whose key (order, file name) has a record in the loaded store is
    skipped: no request, nothing written, nothing queued; (2) the same in
    the trove path for the key ("trove", file name); (3) an order all of
    whose files have a record runs to its end with no call to the outside,
    and so does (4) a trove run: a second run with nothing new downloads
    nothing. *)
Theorem cached_files_are_skipped (env : Env) (self : DownloadLibrary) :
  update self = false ->
  (forall order_id folder ft mq ct url fs,
     ft_url ft !! ct = Some url ->
     cached (cache_data_csv self) order_id (url_filename_of url) ->
     process_content_type env self order_id folder ft mq ct fs
     = (Ok tt, fs, [])) /\
  (forall title product platform download fs,
     cached (cache_data_csv self) "trove" (web_name_of download) ->
     process_trove_download env self title product (platform, download) fs
     = (Ok tt, fs, [])) /\
  (forall order_id order mq fs,
     get_order env order_id = Some order ->
     Forall (fun product =>
               Forall (cached (cache_data_csv self) order_id)
                 (product_filenames self product))
       (subproducts order) ->
     _process_order_id env self order_id mq fs
     = (Ok tt, fs, [EvOrder order_id])) /\
  (forall trove_products fs,
     Forall (fun product =>
               Forall (cached (cache_data_csv self) "trove")
                 (trove_filenames product))
       trove_products ->
     start_trove env self trove_products fs = (Ok tt, fs, [])).
Proof.
  intros Hu. repeat split.
  - intros order_id folder ft mq ct url fs Hurl Hc.
    apply cached_skipped_order; [done|]. intros url' Hurl'. congruence.
  - intros. by apply cached_skipped_trove.
  - intros order_id order mq fs Ho Hall. rewrite Forall_forall in Hall.
    unfold _process_order_id, bind, emit. rewrite Ho.
    rewrite for_each_skipped; [done|]. intros product Hp.
    apply cached_product_skipped; [done|]. by apply Hall.
  - intros trove_products fs Hall. rewrite Forall_forall in Hall.
    unfold start_trove. apply for_each_skipped. intros product Hp.
    apply cached_trove_product_skipped; [done|]. by apply Hall.
Qed.

(** C1 in the scenario: with [update] off and both files in the store, the
    order and the trove run touch nothing. *)
Lemma cached_files_are_skipped_witness :
  let env := scenario_env new_token [Chunk "new"] signed_ok in
  let self := scenario_self false in
  process_content_type env self "ORD1901" "lib" game_file_type
    (Some JoinableQueue) "web" scenario_fs = (Ok tt, scenario_fs, []) /\
  process_trove_download env self "Broken Sword 5" trove_product
    ("windows", trove_download) scenario_fs = (Ok tt, scenario_fs, []) /\
  _process_order_id env self "ORD1901" (Some JoinableQueue) scenario_fs
  = (Ok tt, scenario_fs, [EvOrder "ORD1901"]) /\
  start_trove env self [trove_product] scenario_fs
  = (Ok tt, scenario_fs, []).
Proof.
  intros env self.
  destruct (cached_files_are_skipped env self eq_refl)
    as (Hfile & Htrove & Horder & Hrun).
  assert (Hgame : cached (cache_data_csv self) "ORD1901" "game.zip")
    by (by eexists).
  assert (Hbs : cached (cache_data_csv self) "trove" "BS5_v2.2.1-win32.zip")
    by (by eexists).
  split; [|split; [|split]].
  - apply (Hfile _ _ _ _ _ game_url); [reflexivity|exact Hgame].
  - apply Htrove. exact Hbs.
  - apply (Horder _ game_order); [reflexivity|].
    repeat constructor. exact Hgame.
  - apply Hrun. repeat constructor. exact Hbs.
Defined.

(** ** Change detection (C2, C5) *)

(** C2. In the order path, when the file is served (status 200) with a
    [Last-Modified] header equal to the [remote_modified_date] of the
    record the store gives for its key, the step ends normally with the
    disk as it was and, at most, the one request for the file in its
    trace: no rename, no write, no removal, nothing put on the queue. *)
Theorem equal_token_is_unchanged (env : Env) (self : DownloadLibrary)
    (order_id folder : string) (ft : FileType) (mq : option Queue)
    (ct url header : string) (product_r : Response) (fs : FS) :
  ft_url ft !! ct = Some url ->
  session_get env url = Some product_r ->
  status_code product_r = 200 ->
  last_modified product_r = Some header ->
  remote_modified_date
    (get_cache_item (cache_data_csv self) order_id (url_filename_of url)
       false) = Some header ->
  exists t,
    process_content_type env self order_id folder ft mq ct fs
    = (Ok tt, fs, t) /\
    (t = [] \/ t = [EvGet url]).
Proof.
  intros Hurl Hget Hstatus Hlm Hrec. unfold process_content_type.
  rewrite Hurl.
  destruct (negb (_should_download_file_type _ _)); [by exists []; auto|].
  destruct (_ && _); [by exists []; auto|].
  exists [EvGet url]. split; [|by right].
  unfold bind, emit. rewrite Hget, Hstatus, Hlm. simpl.
  rewrite Hrec. rewrite bool_decide_eq_false_2 by (intros H; by apply H).
  reflexivity.
Qed.

(** C2 in the scenario: a forced re-check of [game.zip] whose header is
    the cached token requests the file and changes nothing. *)
Lemma equal_token_is_unchanged_witness :
  process_content_type (scenario_env old_token [Chunk "new"] signed_ok)
    (scenario_self true) "ORD1901" "lib/Bundle_/Game - One" game_file_type
    (Some JoinableQueue) "web" scenario_fs
  = (Ok tt, scenario_fs, [EvGet game_url]).
Proof.
  destruct (equal_token_is_unchanged
              (scenario_env old_token [Chunk "new"] signed_ok)
              (scenario_self true) "ORD1901" "lib/Bundle_/Game - One"
              game_file_type (Some JoinableQueue) "web" game_url old_token
              (mkResponse 200 (Some old_token) [Chunk "new"]) scenario_fs
              eq_refl eq_refl eq_refl eq_refl eq_refl)
    as (t & Hrun & Ht).
  rewrite Hrun. f_equal.
  destruct Ht as [-> | ->]; [|reflexivity].
  exfalso. revert Hrun. vm_compute. discriminate.
Defined.

(** C5. In the trove path, when the md5 of the catalog entry (or the
    stand-in [UNKNOWN_MD5] when it has none) equals the md5 of the record
    the store gives for the file, the step ends with no call to the
    outside, whatever the two modification tokens are: no signing request,
    no fetch, nothing written. *)
Theorem equal_md5_is_unchanged (env : Env) (self : DownloadLibrary)
    (title : string) (product : TroveProduct) (platform : string)
    (download : TroveDownload) (fs : FS) :
  md5 (get_cache_item (cache_data_csv self) "trove" (web_name_of download)
         true)
  = Some (default "UNKNOWN_MD5" (td_md5 download)) ->
  process_trove_download env self title product (platform, download) fs
  = (Ok tt, fs, []).
Proof.
  intros Hmd5. unfold process_trove_download.
  destruct (negb (_should_download_platform _ _)); [done|].
  destruct (negb (_should_download_file_type _ _)); [done|].
  destruct (_ && _); [done|].
  rewrite Hmd5.
  rewrite (bool_decide_eq_false_2
             (Some (default "UNKNOWN_MD5" (td_md5 download)) <> _))
    by (intros H; by apply H).
  by rewrite andb_false_r.
Qed.

(** C5 in the scenario: a forced re-check of the trove file whose upload
    marker moved from January to June while its md5 stayed [aaaa]. *)
Lemma equal_md5_is_unchanged_witness :
  let download :=
    mkTroveDownload "revolutionsoftware/BS5_v2.2.1-win32.zip"
      (Some "1685577600") None (Some "aaaa") "brokensword5_windows" in
  Some (trove_uploaded_at trove_product download)
  <> remote_modified_date
       (get_cache_item scenario_cache "trove" (web_name_of download) true) /\
  process_trove_download (scenario_env new_token [Chunk "new"] signed_ok)
    (scenario_self true) "Broken Sword 5" trove_product
    ("windows", download) scenario_fs
  = (Ok tt, scenario_fs, []).
Proof.
  intros download. split; [vm_compute; discriminate|].
  apply equal_md5_is_unchanged. reflexivity.
Defined.

(** ** The download step *)

Section Download.
Variable env : Env.

(** [_process_download] in closed form. *)
Lemma process_download_eq self open_r cd path hint mq fs :
  _process_download env self open_r cd path hint mq fs
  = let '(fs1, t1) := after_rename path hint fs in
    let '(written, raised) := write_stream (body open_r) EmptyString in
    match raised with
    | None =>
        match mq with
        | Some _ =>
            (Ok tt, <[path := written]> fs1,
             t1 ++ [EvDownload path None;
                    EvPut (set_local_modified_date cd (now env));
                    EvClose])
        | None =>
            (Raise AttributeError, <[path := written]> fs1,
             t1 ++ [EvDownload path None; EvClose])
        end
    | Some e =>
        if caught e then
          (if is_KeyboardInterrupt e then Raise SystemExit else Ok tt,
           delete path (<[path := written]> fs1),
           t1 ++ [EvDownload path (Some e); EvRemove path; EvClose])
        else
          (Raise e, <[path := written]> fs1,
           t1 ++ [EvDownload path (Some e); EvClose])
    end.
Proof.
  unfold _process_download, try_except_else_finally, after_rename, bind,
    download_file, rename_old_file, try_pass, os_remove, queue_put,
    sys_exit, raise, ret, emit, caught.
  destruct (PyStr.truthy_opt hint);
    [destruct (fs !! path) as [old|]|];
    destruct (write_stream (body open_r) EmptyString) as [w [e|]];
    try (destruct mq; reflexivity);
    destruct e; cbn -[insert delete lookup];
    rewrite ?lookup_insert_eq; reflexivity.
Qed.

End Download.

(** ** The dated name differs from the name *)

Lemma length_append (a b : string) :
  String.length (a +:+ b) = String.length a + String.length b.
Proof. induction a as [|c a IH]; simpl; [done|]. by rewrite IH. Qed.

Lemma rsplit1_spec sep s a b :
  rsplit1 sep s = Some (a, b) -> s = a +:+ String sep b.
Proof.
  revert a. induction s as [|c s IH]; intros a; simpl; [done|].
  destruct (rsplit1 sep s) as [[a' b']|] eqn:Hr.
  - intros [= <- <-]. by rewrite (IH a' eq_refl) at 1.
  - destruct (Ascii.eqb c sep) eqn:Hc; [|done].
    apply Ascii.eqb_eq in Hc as ->. by intros [= <- <-].
Qed.

Lemma length_dated_name path date :
  String.length (dated_name path date)
  = String.length path + 3 + String.length date.
Proof.
  unfold dated_name.
  destruct (rsplit1 "." path) as [[stem ext]|] eqn:Hs.
  - apply rsplit1_spec in Hs. destruct (PyStr.contains "/" ext); subst path;
      repeat (rewrite ?length_append; simpl); lia.
  - repeat (rewrite ?length_append; simpl); lia.
Qed.

Lemma dated_name_fresh path date : dated_name path date <> path.
Proof.
  intros H. pose proof (length_dated_name path date) as Hl.
  rewrite H in Hl. lia.
Qed.

(** ** A failed download (C4) *)

(** C4 (as stated, refuted). A forced-or-changed re-download of [game.zip]
    whose stream breaks after the first chunk: before the run the old file
    is at the canonical path; after it the canonical path is empty and the
    old content sits under the dated name, the rename having been made
    before the download began. The old file is neither untouched nor
    unrenamed. *)
Lemma failed_download_leaves_old_file_renamed :
  let broken := [Chunk "new ga"; Fail OSError] in
  let '(r, fs', t) :=
    process_content_type (scenario_env new_token broken signed_ok)
      (scenario_self true) "ORD1901" "lib/Bundle_/Game - One"
      game_file_type (Some JoinableQueue) "web" scenario_fs in
  scenario_fs !! game_path = Some "old game" /\
  write_stream broken EmptyString = ("new ga", Some OSError) /\
  r = Ok tt /\
  fs' !! game_path = None /\
  fs' !! "lib/Bundle_/Game - One/game [2023-01-01].zip" = Some "old game" /\
  t = [EvGet game_url; EvRename game_path "2023-01-01";
       EvDownload game_path (Some OSError); EvRemove game_path; EvClose] /\
  fs' !! game_path <> scenario_fs !! game_path.
Proof. vm_compute. repeat split; discriminate. Qed.

(** C4 (amended). When [download_file] raises in mid-stream an exception
    the handler catches (any [Exception], or a keyboard interrupt),
    [_process_download] leaves no file at the canonical path, puts nothing
    on the queue, and ends normally, or with [SystemExit] after a keyboard
    interrupt. The old file is not left in place: with a rename hint it has
    been moved to the dated name before the download began, and it stays
    there. Every other file is as it was. *)
Theorem failed_download_cleanup (env : Env) (self : DownloadLibrary)
    (open_r : Response) (cache_data : CsvCacheData) (path : string)
    (hint : option string) (mq : option Queue) (fs : FS)
    (written : string) (e : exn) :
  write_stream (body open_r) EmptyString = (written, Some e) ->
  caught e = true ->
  let '(r, fs', t) :=
    _process_download env self open_r cache_data path hint mq fs in
  fs' !! path = None /\
  existsb is_put t = false /\
  r = (if is_KeyboardInterrupt e then Raise SystemExit else Ok tt) /\
  (forall date old,
     hint = Some date -> PyStr.truthy date = true -> fs !! path = Some old ->
     fs' !! dated_name path date = Some old /\
     t = [EvRename path date; EvDownload path (Some e); EvRemove path;
          EvClose]) /\
  (forall other,
     other <> path -> other <> dated_name path (default "" hint) ->
     fs' !! other = fs !! other).
Proof.
  intros Hw Hc. rewrite process_download_eq. unfold after_rename.
  rewrite Hw, Hc.
  destruct (PyStr.truthy_opt hint) eqn:Hh;
    [destruct (fs !! path) as [old|] eqn:Hold|]; cbn -[insert delete lookup];
    (split; [apply lookup_delete_eq|]);
    (split; [reflexivity|]); (split; [reflexivity|]); split.
  - intros date old' -> _ [= <-]. simpl. split; [|done].
    pose proof (dated_name_fresh path date) as Hfresh.
    rewrite lookup_delete_ne by congruence.
    rewrite lookup_insert_ne by congruence.
    apply lookup_insert_eq.
  - intros other H1 H2.
    rewrite lookup_delete_ne, !lookup_insert_ne, lookup_delete_ne by done.
    done.
  - congruence.
  - intros other H1 H2.
    by rewrite lookup_delete_ne, lookup_insert_ne by done.
  - intros date old -> Ht. simpl in Hh. congruence.
  - intros other H1 H2.
    by rewrite lookup_delete_ne, lookup_insert_ne by done.
Qed.

(** C4, the amended statement in the scenario: the stream of [game.zip]
    breaks with a keyboard interrupt after the first chunk. *)
Lemma failed_download_cleanup_witness :
  let open_r :=
    mkResponse 200 (Some new_token) [Chunk "new ga"; Fail KeyboardInterrupt] in
  let '(r, fs', t) :=
    _process_download (scenario_env new_token (body open_r) signed_ok)
      (scenario_self true) open_r
      (get_cache_item scenario_cache "ORD1901" "game.zip" false)
      game_path (Some "2023-01-01") (Some JoinableQueue) scenario_fs in
  fs' !! game_path = None /\
  existsb is_put t = false /\
  r = Raise SystemExit /\
  fs' !! dated_name game_path "2023-01-01" = Some "old game".
Proof.
  intros open_r.
  pose proof (failed_download_cleanup
                (scenario_env new_token (body open_r) signed_ok)
                (scenario_self true) open_r
                (get_cache_item scenario_cache "ORD1901" "game.zip" false)
                game_path (Some "2023-01-01") (Some JoinableQueue)
                scenario_fs "new ga" KeyboardInterrupt eq_refl eq_refl) as H.
  destruct (_process_download _ _ _ _ _ _ _ _) as [[r fs'] t].
  destruct H as (H1 & H2 & H3 & H4 & _).
  repeat split; [exact H1|exact H2|exact H3|].
  exact (proj1 (H4 "2023-01-01" "old game" eq_refl eq_refl eq_refl)).
Defined.

(** ** Runs that stop at a fatal call *)

Section StopsFacts.
Variable fatal : event -> bool.
Variable after : event -> list event.
Variable post : event -> FS -> Prop.

Local Abbreviation Quiet := (quiet fatal).
Local Abbreviation Obeys := (obeys fatal after post).
Local Abbreviation StopsAt := (stops_at fatal after post).

Lemma quiet_app t1 t2 : Quiet t1 -> Quiet t2 -> Quiet (t1 ++ t2).
Proof.
  unfold quiet. rewrite forallb_app. by intros -> ->.
Qed.

Lemma quiet_elem t ev : Quiet t -> ev ∈ t -> fatal ev = false.
Proof.
  unfold quiet. rewrite forallb_forall. intros Hq Hin.
  apply negb_true_iff, Hq. by apply list_elem_of_In.
Qed.

Lemma obeys_ret {A} (a : A) : Obeys (ret a).
Proof. intros fs. by left. Qed.

Lemma obeys_raise {A} e : Obeys (raise (A := A) e).
Proof. intros fs. by left. Qed.

Lemma obeys_emit ev : fatal ev = false -> Obeys (emit ev).
Proof.
  intros Hev fs. left. unfold quiet. simpl. by rewrite Hev.
Qed.

Lemma obeys_bind {A B} (m : M A) (f : A -> M B) :
  Obeys m -> (forall a, Obeys (f a)) -> Obeys (bind m f).
Proof.
  intros Hm Hf fs. unfold bind. specialize (Hm fs).
  destruct (m fs) as [[[a|e] fs1] t1].
  2:{ destruct Hm as [Hq|(l & ev & Ht & Hl & Hev & Ha & [= ->] & Hp)];
        [by left|].
      right. by exists l, ev. }
  assert (Hq1 : Quiet t1).
  { destruct Hm as [Hq|(l & ev & _ & _ & _ & _ & Hr & _)]; [done|].
    discriminate. }
  specialize (Hf a fs1). destruct (f a fs1) as [[r fs2] t2].
  destruct Hf as [Hq2|(l & ev & -> & Hl & Hev & Ha & Hr & Hp)].
  - left. by apply quiet_app.
  - right. exists (t1 ++ l), ev. rewrite app_assoc.
    repeat split; try done. by apply quiet_app.
Qed.

Lemma obeys_for_each {A} (l : list A) (body : A -> M unit) :
  (forall x, Obeys (body x)) -> Obeys (for_each l body).
Proof.
  intros Hb. induction l as [|x l IH]; simpl.
  - apply obeys_ret.
  - apply obeys_bind; [apply Hb|]. intros _. exact IH.
Qed.

(** The fatal call of a trace is its last but [after], and the run ends
    with [SystemExit]. *)
Lemma stops_at_fatal {A} (r : result A) fs t ev :
  StopsAt (r, fs, t) -> ev ∈ t -> fatal ev = true ->
  r = Raise SystemExit /\ post ev fs /\
  exists l, t = l ++ ev :: after ev /\ Quiet l.
Proof.
  intros [Hq|(l & ev' & -> & Hl & Hev' & Ha & Hr & Hp)] Hin Hev.
  - rewrite (quiet_elem _ _ Hq Hin) in Hev. discriminate.
  - assert (ev = ev') as ->.
    { apply elem_of_app in Hin as [Hin|Hin].
      - rewrite (quiet_elem _ _ Hl Hin) in Hev. discriminate.
      - apply elem_of_cons in Hin as [->|Hin]; [done|].
        rewrite (quiet_elem _ _ Ha Hin) in Hev. discriminate. }
    repeat split; try done. by exists l.
Qed.

(** The processors obey as soon as the signing request and the download
    step do and the other calls are not fatal. *)
Section Processors.
Variable env : Env.
Hypothesis fatal_order : forall order_id, fatal (EvOrder order_id) = false.
Hypothesis fatal_get : forall url, fatal (EvGet url) = false.
Hypothesis obeys_sign :
  forall machine_name web_name,
    Obeys (_get_trove_download_url env machine_name web_name).
Hypothesis obeys_download :
  forall self open_r cd path hint mq,
    Obeys (_process_download env self open_r cd path hint mq).

Lemma obeys_content_type self order_id folder ft mq ct :
  Obeys (process_content_type env self order_id folder ft mq ct).
Proof.
  unfold process_content_type.
  destruct (ft_url ft !! ct) as [url|]; [|apply obeys_ret].
  destruct (negb (_should_download_file_type _ _)); [apply obeys_ret|].
  destruct (_ && _); [apply obeys_ret|].
  apply obeys_bind; [by apply obeys_emit|]. intros _.
  destruct (session_get env url) as [product_r|]; [|apply obeys_ret].
  destruct (negb _); [apply obeys_ret|].
  destruct (last_modified product_r) as [header|]; [|apply obeys_raise].
  destruct (bool_decide _); [|apply obeys_ret].
  apply obeys_bind; [|intros; apply obeys_download].
  destruct (remote_modified_date _) as [d|]; [|apply obeys_ret].
  destruct (http_date_to_ymd env d); [apply obeys_ret|apply obeys_raise].
Qed.

Lemma obeys_download_type self order_id bundle title mq dt :
  Obeys (process_download_type env self order_id bundle title mq dt).
Proof.
  unfold process_download_type.
  destruct (negb _); [apply obeys_ret|].
  apply obeys_for_each. intros ft. apply obeys_for_each. intros ct.
  apply obeys_content_type.
Qed.

Lemma obeys_product self order_id bundle product mq :
  Obeys (_process_product env self order_id bundle product mq).
Proof.
  unfold _process_product. apply obeys_for_each. intros dt.
  apply obeys_download_type.
Qed.

Lemma obeys_order_id self order_id mq :
  Obeys (_process_order_id env self order_id mq).
Proof.
  unfold _process_order_id.
  apply obeys_bind; [by apply obeys_emit|]. intros _.
  destruct (get_order env order_id) as [order|]; [|apply obeys_ret].
  apply obeys_for_each. intros product. apply obeys_product.
Qed.

Lemma obeys_trove_download self title product item :
  Obeys (process_trove_download env self title product item).
Proof.
  unfold process_trove_download. destruct item as [platform download].
  destruct (negb (_should_download_platform _ _)); [apply obeys_ret|].
  destruct (negb (_should_download_file_type _ _)); [apply obeys_ret|].
  destruct (_ && negb _); [apply obeys_ret|].
  destruct (_ && _); [|apply obeys_ret].
  apply obeys_bind; [apply obeys_sign|]. intros [signed|];
    [|apply obeys_ret].
  apply obeys_bind; [by apply obeys_emit|]. intros _.
  destruct (session_get env signed) as [product_r|]; [|apply obeys_ret].
  apply obeys_bind; [|intros; apply obeys_download].
  simpl. destruct (epoch_to_ymd env _);
    [apply obeys_ret|apply obeys_raise].
Qed.

Lemma obeys_trove_product self title product :
  Obeys (_process_trove_product env self title product).
Proof.
  unfold _process_trove_product. apply obeys_for_each. intros item.
  apply obeys_trove_download.
Qed.

Lemma obeys_start_trove self trove_products :
  Obeys (start_trove env self trove_products).
Proof.
  unfold start_trove. apply obeys_for_each. intros product.
  apply obeys_trove_product.
Qed.

End Processors.

End StopsFacts.

(** ** An unauthorized signing response (C7) *)

Section Unauthorized.
Variable env : Env.

Lemma sign_stops_run machine_name web_name :
  obeys (fatal_sign env) (fun _ => []) (fun _ _ => True)
    (_get_trove_download_url env machine_name web_name).
Proof.
  intros fs. unfold _get_trove_download_url, bind, emit.
  destruct (post_sign env machine_name web_name) as [sign_r|] eqn:Hs.
  - destruct (bool_decide (_errors sign_r = Some "Unauthorized")) eqn:Hu.
    + right. exists [], (EvSign machine_name web_name). simpl.
      unfold unauthorized. rewrite Hs, Hu. by repeat split.
    + destruct (signed_url sign_r); left; unfold quiet; simpl;
        unfold unauthorized; by rewrite Hs, Hu.
  - left. unfold quiet. simpl. unfold unauthorized. by rewrite Hs.
Qed.

Lemma download_signs_nothing self open_r cd path hint mq :
  obeys (fatal_sign env) (fun _ => []) (fun _ _ => True)
    (_process_download env self open_r cd path hint mq).
Proof.
  intros fs. rewrite process_download_eq. unfold after_rename, quiet.
  destruct (PyStr.truthy_opt hint); [destruct (fs !! path)|];
    destruct (write_stream _ _) as [w [e|]];
    try destruct (caught e); try destruct mq; by left.
Qed.

End Unauthorized.

(** C7. In a trove run, a signing request answered "Unauthorized" is the
    last call the run makes: the run ends there with [SystemExit], which
    nothing between [_get_trove_download_url] and [start] catches, and no
    later file or product is signed, fetched or written. *)
Theorem unauthorized_signing_ends_run (env : Env) (self : DownloadLibrary)
    (trove_products : list TroveProduct) (fs : FS)
    (machine_name web_name : string) :
  let '(r, _, t) := start_trove env self trove_products fs in
  EvSign machine_name web_name ∈ t ->
  unauthorized env machine_name web_name = true ->
  r = Raise SystemExit /\
  exists l, t = l ++ [EvSign machine_name web_name] /\
            quiet (fatal_sign env) l.
Proof.
  pose proof (obeys_start_trove (fatal_sign env) (fun _ => [])
                (fun _ _ => True) env (fun _ => eq_refl)
                (sign_stops_run env) (download_signs_nothing env)
                self trove_products fs) as Hrun.
  destruct (start_trove env self trove_products fs) as [[r fs'] t].
  intros Hin Hu.
  destruct (stops_at_fatal _ _ _ _ _ _ _ Hrun Hin Hu) as (Hr & _ & Hl).
  by split.
Qed.

(** C7 in the scenario: the account has no access to the trove; the run
    stops at the signing request of the first product and never reaches
    the second. *)
Lemma unauthorized_signing_ends_run_witness :
  let env := scenario_env new_token [Chunk "new trove"] signed_unauthorized in
  let self := __init__ ∅ false None None None [] true false None in
  let run :=
    start_trove env self [trove_product; other_trove_product] ∅ in
  EvSign "brokensword5_windows" "BS5_v2.2.1-win32.zip" ∈ run.2 /\
  unauthorized env "brokensword5_windows" "BS5_v2.2.1-win32.zip" = true /\
  run.1.1 = Raise SystemExit /\
  exists l, run.2 = l ++ [EvSign "brokensword5_windows"
                            "BS5_v2.2.1-win32.zip"].
Proof.
  intros env self run.
  assert (Hin : EvSign "brokensword5_windows" "BS5_v2.2.1-win32.zip" ∈ run.2)
    by (vm_compute; left).
  assert (Hu : unauthorized env "brokensword5_windows"
                 "BS5_v2.2.1-win32.zip" = true) by reflexivity.
  pose proof (unauthorized_signing_ends_run env self
                [trove_product; other_trove_product] ∅
                "brokensword5_windows" "BS5_v2.2.1-win32.zip") as H.
  fold run in H. destruct run as [[r fs'] t]. simpl in *.
  destruct (H Hin Hu) as (Hr & l & Hl & _).
  repeat split; try done. by exists l.
Defined.

(** ** A keyboard interrupt during a download *)

Section Interrupt.
Variable env : Env.

Lemma sign_interrupts_nothing machine_name web_name :
  obeys interrupted after_interrupt gone_after_interrupt
    (_get_trove_download_url env machine_name web_name).
Proof.
  intros fs. unfold _get_trove_download_url, bind, emit.
  destruct (post_sign env machine_name web_name) as [sign_r|];
    [|by left].
  destruct (bool_decide _); [by left|].
  destruct (signed_url sign_r); by left.
Qed.

Lemma download_stops_run self open_r cd path hint mq :
  obeys interrupted after_interrupt gone_after_interrupt
    (_process_download env self open_r cd path hint mq).
Proof.
  intros fs. rewrite process_download_eq.
  destruct (after_rename path hint fs) as [fs1 t1] eqn:Hren.
  assert (Ht1 : quiet interrupted t1).
  { revert Hren. unfold after_rename.
    destruct (PyStr.truthy_opt hint); [destruct (fs !! path)|];
      by intros [= <- <-]. }
  destruct (write_stream _ _) as [w [e|]].
  - destruct (caught e) eqn:Hc.
    + destruct e; try discriminate; simpl;
        try (left; apply quiet_app; [exact Ht1|reflexivity]).
      right. exists t1, (EvDownload path (Some KeyboardInterrupt)).
      repeat split; try done. simpl. apply lookup_delete_eq.
    + left. apply quiet_app; [exact Ht1|]. by destruct e.
  - destruct mq; left; (apply quiet_app; [exact Ht1|reflexivity]).
Qed.

End Interrupt.

(** X22. A keyboard interrupt that cuts [download_file] is followed by the
    removal of the file at the canonical path and the closing of the
    connection, and by nothing else in the sequence of calls it belongs
    to: the trove run ends there with [SystemExit] and the path is empty;
    in the order path the work unit [_process_order_id] that a pool worker
    runs ends there in the same way, no further file of that order being
    processed. What the pool of the order branch of [start] then does
    with the other work units is not part of the statement. *)
Theorem keyboard_interrupt_ends_work_unit (env : Env)
    (self : DownloadLibrary) (path : string) :
  (forall trove_products fs,
     let '(r, fs', t) := start_trove env self trove_products fs in
     EvDownload path (Some KeyboardInterrupt) ∈ t ->
     r = Raise SystemExit /\ fs' !! path = None /\
     exists l, t = l ++ [EvDownload path (Some KeyboardInterrupt);
                         EvRemove path; EvClose]) /\
  (forall order_id mq fs,
     let '(r, fs', t) := _process_order_id env self order_id mq fs in
     EvDownload path (Some KeyboardInterrupt) ∈ t ->
     r = Raise SystemExit /\ fs' !! path = None /\
     exists l, t = l ++ [EvDownload path (Some KeyboardInterrupt);
                         EvRemove path; EvClose]).
Proof.
  split.
  - intros trove_products fs.
    pose proof (obeys_start_trove interrupted after_interrupt
                  gone_after_interrupt env (fun _ => eq_refl)
                  (sign_interrupts_nothing env) (download_stops_run env)
                  self trove_products fs) as Hrun.
    destruct (start_trove env self trove_products fs) as [[r fs'] t].
    intros Hin.
    destruct (stops_at_fatal _ _ _ _ _ _ _ Hrun Hin eq_refl)
      as (Hr & Hp & l & Hl & _).
    repeat split; try done. by exists l.
  - intros order_id mq fs.
    pose proof (obeys_order_id interrupted after_interrupt
                  gone_after_interrupt env (fun _ => eq_refl)
                  (fun _ => eq_refl) (download_stops_run env)
                  self order_id mq fs) as Hrun.
    destruct (_process_order_id env self order_id mq fs) as [[r fs'] t].
    intros Hin.
    destruct (stops_at_fatal _ _ _ _ _ _ _ Hrun Hin eq_refl)
      as (Hr & Hp & l & Hl & _).
    repeat split; try done. by exists l.
Qed.

(** X22 in the scenario: Ctrl-C while the first trove file is written, and
    while [game.zip] of the order is written. *)
Lemma keyboard_interrupt_ends_work_unit_witness :
  let env :=
    scenario_env new_token [Chunk "new "; Fail KeyboardInterrupt] signed_ok in
  let self := scenario_self true in
  let trove_run :=
    start_trove env self [trove_product; other_trove_product] scenario_fs in
  let order_run :=
    _process_order_id env self "ORD1901" (Some JoinableQueue) scenario_fs in
  (EvDownload trove_path (Some KeyboardInterrupt) ∈ trove_run.2 /\
   trove_run.1.1 = Raise SystemExit /\ trove_run.1.2 !! trove_path = None) /\
  (EvDownload game_path (Some KeyboardInterrupt) ∈ order_run.2 /\
   order_run.1.1 = Raise SystemExit /\ order_run.1.2 !! game_path = None).
Proof.
  intros env self trove_run order_run. split.
  - assert (Hin : EvDownload trove_path (Some KeyboardInterrupt)
                    ∈ trove_run.2)
      by (vm_compute; do 3 right; left).
    pose proof (proj1 (keyboard_interrupt_ends_work_unit env self trove_path)
                  [trove_product; other_trove_product] scenario_fs) as H.
    fold trove_run in H. destruct trove_run as [[r fs'] t]. simpl in *.
    destruct (H Hin) as (Hr & Hp & _). by repeat split.
  - assert (Hin : EvDownload game_path (Some KeyboardInterrupt)
                    ∈ order_run.2)
      by (vm_compute; do 3 right; left).
    pose proof (proj2 (keyboard_interrupt_ends_work_unit env self game_path)
                  "ORD1901" (Some JoinableQueue) scenario_fs) as H.
    fold order_run in H. destruct order_run as [[r fs'] t]. simpl in *.
    destruct (H Hin) as (Hr & Hp & _). by repeat split.
Defined.

(** ** What a successful download reports (C6) *)

(** In the order path, with a queue, a download that succeeds puts on the
    queue the record with the new token, the md5 of the catalog and the
    current time. *)
Lemma order_download_reports (env : Env) (self : DownloadLibrary)
    (order_id folder : string) (ft : FileType) (q : Queue)
    (ct url header : string) (product_r : Response) (fs : FS)
    (written : string) :
  ft_url ft !! ct = Some url ->
  _should_download_file_type self
    (PyStr.split_last "." (url_filename_of url)) = true ->
  cache_data_csv self !! (order_id, url_filename_of url) = None ->
  session_get env url = Some product_r ->
  status_code product_r = 200 ->
  last_modified product_r = Some header ->
  write_stream (body product_r) EmptyString = (written, None) ->
  let path := os_path_join folder (url_filename_of url) in
  process_content_type env self order_id folder ft (Some q) ct fs
  = (Ok tt, <[path := written]> fs,
     [EvGet url; EvDownload path None;
      EvPut (mkCsvCacheData order_id (url_filename_of url) (ft_md5 ft)
               (Some header) (Some (now env)));
      EvClose]).
Proof.
  intros Hurl Hft Hnew Hget Hstatus Hlm Hw path.
  unfold process_content_type. rewrite Hurl, Hft. simpl.
  unfold contains, get_cache_item. rewrite Hnew. unfold key. simpl.
  rewrite Hnew.
  rewrite bool_decide_eq_false_2 by (by intros [? ?]). simpl.
  unfold bind at 1. unfold emit at 1. rewrite Hget, Hstatus, Hlm. simpl.
  unfold bind, ret. rewrite process_download_eq. simpl. rewrite Hw.
  reflexivity.
Qed.

(** C6 (the trove path, at the failing input). The trove call of
    [_process_download] passes no queue: the first trove file that
    downloads well is written, and then [None.put] raises
    [AttributeError], which leaves [_process_download] through its [else]
    branch and ends the run; no record is put on any queue and the second
    product is never reached. *)
Theorem trove_download_reports_nothing :
  let env := scenario_env new_token [Chunk "new trove"] signed_ok in
  let self := __init__ ∅ false None None None [] true false None in
  start_trove env self [trove_product; other_trove_product] ∅
  = (Raise AttributeError,
     {[ trove_path := "new trove" ]},
     [EvSign "brokensword5_windows" "BS5_v2.2.1-win32.zip";
      EvGet signed_game_url;
      EvRename trove_path "2023-06-01";
      EvDownload trove_path None;
      EvClose]).
Proof. vm_compute. reflexivity. Qed.

(** ** The date of the renamed file (C3) *)

(** In the order path the date of the renamed file is that of the token
    the store held: the changed [game.zip] of the scenario. *)
Lemma order_rename_uses_cached_token :
  process_content_type (scenario_env new_token [Chunk "new game"] signed_ok)
    (scenario_self true) "ORD1901" "lib/Bundle_/Game - One" game_file_type
    (Some JoinableQueue) "web" scenario_fs
  = (Ok tt,
     {[ game_path := "new game";
        "lib/Bundle_/Game - One/game [2023-01-01].zip" := "old game";
        trove_path := "old trove" ]},
     [EvGet game_url;
      EvRename game_path "2023-01-01";
      EvDownload game_path None;
      EvPut (mkCsvCacheData "ORD1901" "game.zip" (Some "bbbb")
               (Some new_token) (Some "04 Nov 2026 12:00:00 "));
      EvClose]).
Proof. vm_compute. reflexivity. Qed.

(** In the order path, a changed file that has a record and an old copy on
    disk: the old copy is renamed with the date of the token the store
    held, before the new content is written to the canonical path. *)
Lemma order_update_keeps_old_file (env : Env) (self : DownloadLibrary)
    (order_id folder : string) (ft : FileType) (q : Queue)
    (ct url header d ymd old written : string) (product_r : Response)
    (fs : FS) :
  ft_url ft !! ct = Some url ->
  _should_download_file_type self
    (PyStr.split_last "." (url_filename_of url)) = true ->
  update self = true ->
  session_get env url = Some product_r ->
  status_code product_r = 200 ->
  last_modified product_r = Some header ->
  remote_modified_date
    (get_cache_item (cache_data_csv self) order_id (url_filename_of url)
       false) = Some d ->
  header <> d ->
  http_date_to_ymd env d = Some ymd ->
  PyStr.truthy ymd = true ->
  write_stream (body product_r) EmptyString = (written, None) ->
  let path := os_path_join folder (url_filename_of url) in
  fs !! path = Some old ->
  exists item,
    process_content_type env self order_id folder ft (Some q) ct fs
    = (Ok tt,
       <[path := written]> (<[dated_name path ymd := old]> (delete path fs)),
       [EvGet url; EvRename path ymd; EvDownload path None; EvPut item;
        EvClose]) /\
    remote_modified_date item = Some header.
Proof.
  intros Hurl Hft Hupd Hget Hstatus Hlm Hrec Hne Hymd Htruthy Hw path Hold.
  eexists. unfold process_content_type. rewrite Hurl, Hft, Hupd.
  rewrite andb_false_r. cbn [negb].
  unfold bind at 1. unfold emit at 1. rewrite Hget, Hstatus, Hlm.
  cbn [Nat.eqb negb]. cbn [remote_modified_date set_md5]. rewrite Hrec.
  rewrite bool_decide_eq_true_2 by congruence.
  rewrite Hymd. unfold bind, ret. rewrite process_download_eq.
  unfold after_rename. cbn [PyStr.truthy_opt default]. rewrite Htruthy.
  fold path. rewrite Hold, Hw. split; reflexivity.
Qed.

(** C3 (the trove path, at the failing input). The store holds the trove
    file at its January revision (token 1672531200, md5 aaaa) and the
    catalog offers the June revision (token 1685577600, md5 bbbb).
    [_process_trove_product] writes the new token into the record before it
    reads the record for the date of the rename, so the old file is renamed
    with the date of the new revision, 2023-06-01, not with that of the
    revision it holds, 2023-01-01. *)
Theorem trove_rename_uses_new_token :
  let env := scenario_env new_token [Chunk "new trove"] signed_ok in
  let self := scenario_self true in
  let '(_, fs', t) :=
    process_trove_download env self "Broken Sword 5" trove_product
      ("windows", trove_download) scenario_fs in
  remote_modified_date
    (get_cache_item (cache_data_csv self) "trove"
       (web_name_of trove_download) true) = Some "1672531200" /\
  epoch_to_ymd env "1672531200" = Some "2023-01-01" /\
  trove_uploaded_at trove_product trove_download = "1685577600" /\
  epoch_to_ymd env "1685577600" = Some "2023-06-01" /\
  (EvRename trove_path "2023-06-01" ∈ t) /\
  (EvRename trove_path "2023-01-01" ∉ t) /\
  fs' !! "lib/Humble Trove/Broken Sword 5/BS5_v2.2.1-win32 [2023-06-01].zip"
  = Some "old trove" /\
  fs' !! "lib/Humble Trove/Broken Sword 5/BS5_v2.2.1-win32 [2023-01-01].zip"
  = None.
Proof.
  vm_compute. repeat split.
  - do 2 right. left.
  - intros H. repeat (apply elem_of_cons in H as [H|H]; [discriminate|]).
    by apply elem_of_nil in H.
Qed.

(** * Further properties of the code *)

(** ** [_clean_name] *)

Lemma left_clean_begins p s :
  PyStr.left_clean p s <-> begins_with p s = false.
Proof.
  unfold PyStr.left_clean, begins_with. destruct (PyStr.head s) as [c|].
  - split; [intros H; by apply H|]. by intros H ? [= <-].
  - by split.
Qed.

Lemma right_clean_ends p s :
  PyStr.right_clean p s <-> ends_with p s = false.
Proof.
  unfold PyStr.right_clean, ends_with. destruct (PyStr.last s) as [c|].
  - split; [intros H; by apply H|]. by intros H ? [= <-].
  - by split.
Qed.



(** X2. A title made of kept characters that neither begins nor ends with
    white space and does not end with a period is its own clean form. *)
Theorem clean_name_fixes_clean_titles (s : string) :
  PyStr.all clean_keeps s = true ->
  begins_with PyStr.isspace s = false ->
  ends_with PyStr.isspace s = false ->
  ends_with is_dot s = false ->
  _clean_name s = s.
Proof.
  intros Hall Hb He Hd. rewrite (clean_name_of_kept _ Hall).
  unfold PyStr.strip, PyStr.rstrip.
  rewrite PyStrFacts.lstrip_by_fixed by by apply left_clean_begins.
  rewrite (PyStrFacts.rstrip_by_fixed PyStr.isspace)
    by by apply right_clean_ends.
  apply PyStrFacts.rstrip_by_fixed. by apply right_clean_ends.
Qed.

Lemma clean_name_fixes_clean_titles_witness :
  _clean_name "Broken Sword 5 - the Serpent_s Curse [v2.1]"
  = "Broken Sword 5 - the Serpent_s Curse [v2.1]".
Proof.
  apply clean_name_fixes_clean_titles; reflexivity.
Defined.

(** ** The filters and the names of files *)

Lemma lower_char_idemp c :
  PyStr.lower_char (PyStr.lower_char c) = PyStr.lower_char c.
Proof. destruct c as [[] [] [] [] [] [] [] []]; reflexivity. Qed.

Lemma lower_idemp s : PyStr.lower (PyStr.lower s) = PyStr.lower s.
Proof.
  induction s as [|c s IH]; simpl; [done|].
  by rewrite lower_char_idemp, IH.
Qed.

Lemma map_lower_idemp (l : list string) :
  map PyStr.lower (map PyStr.lower l) = map PyStr.lower l.
Proof.
  rewrite map_map. apply map_ext. intros s. apply lower_idemp.
Qed.

(** X3. The filters do not see the case of letters: for an instance built
    by [__init__], lower-casing the extension or platform asked about, and
    lower-casing the configured extension lists, changes no decision. *)
Theorem filters_ignore_case (loaded : Cache) (pb : bool)
    (inc exc plat : option (list string)) (keys : list string)
    (tr upd : bool) (cts : option (list string)) (ext platform : string) :
  let self := __init__ loaded pb inc exc plat keys tr upd cts in
  let lowered :=
    __init__ loaded pb (map PyStr.lower <$> inc) (map PyStr.lower <$> exc)
      plat keys tr upd cts in
  _should_download_file_type self (PyStr.lower ext)
  = _should_download_file_type self ext /\
  _should_download_file_type lowered ext
  = _should_download_file_type self ext /\
  _should_download_platform self (PyStr.lower platform)
  = _should_download_platform self platform.
Proof.
  intros self lowered. split; [|split].
  - unfold _should_download_file_type. by rewrite lower_idemp.
  - unfold lowered, self. rewrite !init_file_type.
    destruct inc as [[|x l]|]; destruct exc as [[|y l']|]; simpl; try done;
      by rewrite ?lower_idemp, ?map_lower_idemp.
  - unfold _should_download_platform. by rewrite lower_idemp.
Qed.

Lemma split_last_no_sep sep s :
  PyStr.contains sep (PyStr.split_last sep s) = false.
Proof.
  induction s as [|c s IH]; simpl; [done|].
  destruct (PyStr.contains sep s) eqn:Hs; [done|].
  destruct (Ascii.eqb c sep) eqn:Hc; [done|]. simpl. by rewrite Hc, Hs.
Qed.

Lemma split_last_keeps_absent q sep s :
  PyStr.contains q s = false ->
  PyStr.contains q (PyStr.split_last sep s) = false.
Proof.
  induction s as [|c s IH]; simpl; [done|].
  intros [Hc Hs]%orb_false_elim.
  destruct (PyStr.contains sep s); [auto|].
  destruct (Ascii.eqb c sep); [done|]. simpl. by rewrite Hc, Hs.
Qed.

Lemma split_first_no_sep sep s :
  PyStr.contains sep (PyStr.split_first sep s) = false.
Proof.
  induction s as [|c s IH]; simpl; [done|].
  destruct (Ascii.eqb c sep) eqn:Hc; [done|]. simpl. by rewrite Hc, IH.
Qed.

Lemma contains_append q a b :
  PyStr.contains q (a +:+ b) = PyStr.contains q a || PyStr.contains q b.
Proof.
  induction a as [|c a IH]; simpl; [done|]. by rewrite IH, orb_assoc.
Qed.

Lemma append_assoc (a b c : string) : (a +:+ b) +:+ c = a +:+ (b +:+ c).
Proof.
  induction a as [|x a IH]; [done|].
  change (String x ((a +:+ b) +:+ c) = String x (a +:+ (b +:+ c))).
  by rewrite IH.
Qed.

Lemma split_first_append sep a b :
  PyStr.contains sep a = false ->
  PyStr.split_first sep (a +:+ String sep b) = a.
Proof.
  induction a as [|c a IH]; simpl.
  - by rewrite Ascii.eqb_refl.
  - intros [Hc Ha]%orb_false_elim. by rewrite Hc, IH.
Qed.

Lemma split_first_absent sep s :
  PyStr.contains sep s = false -> PyStr.split_first sep s = s.
Proof.
  induction s as [|c s IH]; simpl; [done|].
  intros [Hc Hs]%orb_false_elim. by rewrite Hc, IH.
Qed.

Lemma split_last_append sep a b :
  PyStr.contains sep b = false ->
  PyStr.split_last sep (a +:+ String sep b) = b.
Proof.
  intros Hb. induction a as [|c a IH]; simpl.
  - by rewrite Hb, Ascii.eqb_refl.
  - rewrite contains_append. simpl. rewrite Ascii.eqb_refl, orb_true_r.
    exact IH.
Qed.

(** X4. The name under which a file is stored is the last segment of the
    path of its URL: it has no slash and no question mark, whatever the
    URL, and the trove name has no slash; and for a URL made of a base,
    a slash, a name free of slashes and question marks and, possibly, a
    question mark and a query, it is that name. *)
Theorem url_file_name_is_last_segment (url : string)
    (download : TroveDownload) :
  PyStr.contains "/" (url_filename_of url) = false /\
  PyStr.contains "?" (url_filename_of url) = false /\
  PyStr.contains "/" (web_name_of download) = false /\
  (forall base name query,
     PyStr.contains "?" base = false ->
     PyStr.contains "/" name = false ->
     PyStr.contains "?" name = false ->
     url_filename_of (base +:+ "/" +:+ name +:+ "?" +:+ query) = name /\
     url_filename_of (base +:+ "/" +:+ name) = name).
Proof.
  split; [apply split_last_no_sep|].
  split; [apply split_last_keeps_absent, split_first_no_sep|].
  split; [apply split_last_no_sep|].
  intros base name query Hbase Hslash Hquery.
  assert (Hpath : PyStr.contains "?" (base +:+ "/" +:+ name) = false).
  { rewrite !contains_append. by rewrite Hbase, Hquery. }
  unfold url_filename_of. split.
  - replace (base +:+ "/" +:+ name +:+ "?" +:+ query)
      with ((base +:+ "/" +:+ name) +:+ String "?" query)
      by (by rewrite !append_assoc).
    rewrite split_first_append by done. by apply split_last_append.
  - rewrite split_first_absent by done. by apply split_last_append.
Qed.

Lemma url_file_name_is_last_segment_witness :
  url_filename_of "https://dl.example/ORD1901/game.zip?key=1&p=/a?b"
  = "game.zip".
Proof.
  apply (proj1
           (proj2 (proj2 (proj2 (url_file_name_is_last_segment
                                   EmptyString trove_download)))
              "https://dl.example/ORD1901" "game.zip" "key=1&p=/a?b"
              eq_refl eq_refl eq_refl)).
Defined.

(** ** The order path: files that cannot be fetched *)

Section OrderEdges.
Variable env : Env.

Lemma asked_for_requests self order_id folder ft mq ct url fs :
  asked_for self order_id ft ct url ->
  process_content_type env self order_id folder ft mq ct fs
  = bind (emit (EvGet url)) (fun _ =>
      match session_get env url with
      | None => ret tt
      | Some product_r =>
          if negb (Nat.eqb (status_code product_r) 200) then ret tt
          else
            match last_modified product_r with
            | None => raise KeyError
            | Some header =>
                let cache_file_info :=
                  set_md5
                    (get_cache_item (cache_data_csv self) order_id
                       (url_filename_of url) false) (ft_md5 ft) in
                if bool_decide
                     (Some header <> remote_modified_date cache_file_info)
                then
                  bind
                    match remote_modified_date cache_file_info with
                    | Some d =>
                        match http_date_to_ymd env d with
                        | Some ymd => ret (Some ymd)
                        | None => raise ValueError
                        end
                    | None => ret None
                    end
                    (fun last_modified =>
                       _process_download env self product_r
                         (set_remote_modified_date cache_file_info header)
                         (os_path_join folder (url_filename_of url))
                         last_modified mq)
                else ret tt
            end
      end) fs.
Proof.
  intros (Hurl & Hft & Hask). unfold process_content_type.
  rewrite Hurl, Hft. cbn [negb].
  assert (contains (cache_data_csv self)
            (get_cache_item (cache_data_csv self) order_id
               (url_filename_of url) false) && negb (update self) = false)
    as ->; [|done].
  destruct Hask as [Hnew| ->]; [|apply andb_false_r].
  unfold contains, get_cache_item, key. rewrite Hnew. simpl. rewrite Hnew.
  rewrite bool_decide_eq_false_2 by (by intros [? ?]). done.
Qed.

(** X5. A file that is asked for and cannot be had, because the request
    raises or the answer is not a 200, is skipped: the request is the only
    call made, the disk is as it was, nothing is queued, and the loop goes
    on. *)
Theorem unavailable_file_is_skipped (self : DownloadLibrary)
    (order_id folder : string) (ft : FileType) (mq : option Queue)
    (ct url : string) (fs : FS) :
  asked_for self order_id ft ct url ->
  (session_get env url = None \/
   exists product_r,
     session_get env url = Some product_r /\
     status_code product_r <> 200) ->
  process_content_type env self order_id folder ft mq ct fs
  = (Ok tt, fs, [EvGet url]).
Proof.
  intros Hask Hget. rewrite (asked_for_requests _ _ _ _ _ _ url) by done.
  unfold bind, emit, ret.
  destruct Hget as [-> | (product_r & -> & Hstatus)]; [done|].
  apply Nat.eqb_neq in Hstatus. by rewrite Hstatus.
Qed.

(** X6. A 200 answer without a [Last-Modified] header raises [KeyError]
    out of the step, hence out of [_process_product] and
    [_process_order_id], which catch nothing: nothing is written and the
    files that follow in the order are not looked at. *)
Theorem missing_header_raises_KeyError (self : DownloadLibrary)
    (order_id bundle : string) (ft : FileType) (mq : option Queue)
    (ct url : string) (product_r : Response) (fs : FS)
    (later_files : list FileType) (later_types : list DownloadType)
    (platform title : string) :
  asked_for self order_id ft ct url ->
  _should_download_platform self platform = true ->
  content_types self = [ct] ->
  session_get env url = Some product_r ->
  status_code product_r = 200 ->
  last_modified product_r = None ->
  process_content_type env self order_id
    (create_product_folder env bundle (_clean_name title)) ft mq ct fs
  = (Raise KeyError, fs, [EvGet url]) /\
  _process_product env self order_id bundle
    (mkProduct title
       (mkDownloadType platform (ft :: later_files) :: later_types)) mq fs
  = (Raise KeyError, fs, [EvGet url]).
Proof.
  intros Hask Hp Hct Hget Hstatus Hlm.
  assert (Hstep : forall folder,
            process_content_type env self order_id folder ft mq ct fs
            = (Raise KeyError, fs, [EvGet url])).
  { intros folder. rewrite (asked_for_requests _ _ _ _ _ _ url) by done.
    unfold bind, emit. by rewrite Hget, Hstatus, Hlm. }
  split; [apply Hstep|].
  unfold _process_product. cbn [downloads human_name for_each].
  apply bind_raise. unfold process_download_type.
  cbn [dt_platform download_struct]. rewrite Hp. cbn [negb for_each].
  apply bind_raise. rewrite Hct. cbn [for_each].
  apply bind_raise. apply Hstep.
Qed.

(** X7. A changed file whose stored token does not parse as an HTTP date
    raises [ValueError] after the request: nothing is renamed or written,
    and the connection is not closed. *)
Theorem unparsable_cached_date_raises_ValueError (self : DownloadLibrary)
    (order_id folder : string) (ft : FileType) (mq : option Queue)
    (ct url header d : string) (product_r : Response) (fs : FS) :
  asked_for self order_id ft ct url ->
  session_get env url = Some product_r ->
  status_code product_r = 200 ->
  last_modified product_r = Some header ->
  remote_modified_date
    (get_cache_item (cache_data_csv self) order_id (url_filename_of url)
       false) = Some d ->
  header <> d ->
  http_date_to_ymd env d = None ->
  process_content_type env self order_id folder ft mq ct fs
  = (Raise ValueError, fs, [EvGet url]).
Proof.
  intros Hask Hget Hstatus Hlm Hrec Hne Hymd.
  rewrite (asked_for_requests _ _ _ _ _ _ url) by done.
  unfold bind at 1. unfold emit. rewrite Hget, Hstatus, Hlm.
  cbn [Nat.eqb negb remote_modified_date set_md5]. rewrite Hrec.
  rewrite bool_decide_eq_true_2 by congruence.
  unfold bind, raise. by rewrite Hymd.
Qed.

End OrderEdges.

Lemma unavailable_file_is_skipped_witness :
  let self := __init__ ∅ false None None None [] false false None in
  process_content_type offline_env self "ORD1901" "lib" zip_file_type None
    "web" ∅
  = (Ok tt, ∅, [EvGet "https://dl.example/ORD1901/game.ZIP?key=1"]).
Proof.
  intros self. apply unavailable_file_is_skipped.
  - split; [reflexivity|split; [reflexivity|left; reflexivity]].
  - left. reflexivity.
Defined.

Lemma missing_header_raises_KeyError_witness :
  let self := __init__ ∅ false None None None [] false false None in
  _process_product headerless_env self "ORD1901" "Bundle_"
    (mkProduct "Game: One"
       [mkDownloadType "windows" [game_file_type; zip_file_type]])
    (Some JoinableQueue) ∅
  = (Raise KeyError, ∅, [EvGet game_url]).
Proof.
  intros self.
  apply (missing_header_raises_KeyError headerless_env self "ORD1901"
           "Bundle_" game_file_type (Some JoinableQueue) "web" game_url
           (mkResponse 200 None [Chunk "new game"]) ∅ [zip_file_type] []
           "windows" "Game: One");
    try reflexivity.
  split; [reflexivity|split; [reflexivity|left; reflexivity]].
Defined.

Lemma unparsable_cached_date_raises_ValueError_witness :
  let self :=
    __init__ unparsable_cache false None None None [] false true None in
  process_content_type (scenario_env new_token [Chunk "new game"] signed_ok)
    self "ORD1901" "lib" game_file_type (Some JoinableQueue) "web"
    scenario_fs
  = (Raise ValueError, scenario_fs, [EvGet game_url]).
Proof.
  intros self.
  apply (unparsable_cached_date_raises_ValueError
           (scenario_env new_token [Chunk "new game"] signed_ok) self
           "ORD1901" "lib" game_file_type (Some JoinableQueue) "web"
           game_url new_token "1672531200"
           (mkResponse 200 (Some new_token) [Chunk "new game"]) scenario_fs);
    try reflexivity.
  - split; [reflexivity|split; [reflexivity|right; reflexivity]].
  - discriminate.
Defined.

(** ** The order path: what a download leaves behind *)

(** X8. A file new to the store that is served and written without error
    leaves the bytes of the stream at the canonical path and puts one
    record on the queue: the key of the file, the md5 of the catalog, the
    [Last-Modified] header as remote token and the current time; the
    calls are the request, the download, the put and the closing, in this
    order, with no rename. *)
Theorem new_file_is_written_and_reported (env : Env)
    (self : DownloadLibrary) (order_id folder : string) (ft : FileType)
    (q : Queue) (ct url header : string) (product_r : Response) (fs : FS)
    (data : string) :
  ft_url ft !! ct = Some url ->
  _should_download_file_type self
    (PyStr.split_last "." (url_filename_of url)) = true ->
  cache_data_csv self !! (order_id, url_filename_of url) = None ->
  session_get env url = Some product_r ->
  status_code product_r = 200 ->
  last_modified product_r = Some header ->
  write_stream (body product_r) EmptyString = (data, None) ->
  process_content_type env self order_id folder ft (Some q) ct fs
  = (Ok tt,
     <[os_path_join folder (url_filename_of url) := data]> fs,
     [EvGet url;
      EvDownload (os_path_join folder (url_filename_of url)) None;
      EvPut (mkCsvCacheData order_id (url_filename_of url) (ft_md5 ft)
               (Some header) (Some (now env)));
      EvClose]).
Proof.
  intros Hurl Hft Hnew Hget Hstatus Hlm Hw.
  exact (order_download_reports env self order_id folder ft q ct url header
           product_r fs data Hurl Hft Hnew Hget Hstatus Hlm Hw).
Qed.

Lemma new_file_is_written_and_reported_witness :
  let env := scenario_env new_token [Chunk "new "; Chunk "game"] signed_ok in
  let self := __init__ ∅ false None None None [] false false None in
  process_content_type env self "ORD1901" "lib/Bundle_/Game - One"
    game_file_type (Some JoinableQueue) "web" ∅
  = (Ok tt, {[ game_path := "new game" ]},
     [EvGet game_url; EvDownload game_path None;
      EvPut (mkCsvCacheData "ORD1901" "game.zip" (Some "bbbb")
               (Some new_token) (Some "04 Nov 2026 12:00:00 "));
      EvClose]).
Proof.
  intros env self.
  apply (new_file_is_written_and_reported env self "ORD1901"
           "lib/Bundle_/Game - One" game_file_type JoinableQueue "web"
           game_url new_token
           (mkResponse 200 (Some new_token) [Chunk "new "; Chunk "game"])
           ∅ "new game"); reflexivity.
Defined.

(** X9. A forced re-check that finds a new token for a file that has a
    record with a parsable token [d] and an old copy on disk: the old copy
    is renamed with the date of [d] before the new bytes are written to
    the canonical path, the old content is kept under the dated name, and
    the record put on the queue carries the new token. *)
Theorem changed_file_keeps_old_copy (env : Env) (self : DownloadLibrary)
    (order_id folder : string) (ft : FileType) (q : Queue)
    (ct url header d ymd old data : string) (product_r : Response)
    (fs : FS) :
  ft_url ft !! ct = Some url ->
  _should_download_file_type self
    (PyStr.split_last "." (url_filename_of url)) = true ->
  update self = true ->
  session_get env url = Some product_r ->
  status_code product_r = 200 ->
  last_modified product_r = Some header ->
  remote_modified_date
    (get_cache_item (cache_data_csv self) order_id (url_filename_of url)
       false) = Some d ->
  header <> d ->
  http_date_to_ymd env d = Some ymd ->
  PyStr.truthy ymd = true ->
  write_stream (body product_r) EmptyString = (data, None) ->
  fs !! os_path_join folder (url_filename_of url) = Some old ->
  let path := os_path_join folder (url_filename_of url) in
  exists item fs',
    process_content_type env self order_id folder ft (Some q) ct fs
    = (Ok tt, fs',
       [EvGet url; EvRename path ymd; EvDownload path None; EvPut item;
        EvClose]) /\
    fs' !! path = Some data /\
    fs' !! dated_name path ymd = Some old /\
    remote_modified_date item = Some header.
Proof.
  intros Hurl Hft Hupd Hget Hstatus Hlm Hrec Hne Hymd Htruthy Hw Hold path.
  destruct (order_update_keeps_old_file env self order_id folder ft q ct url
              header d ymd old data product_r fs Hurl Hft Hupd Hget Hstatus
              Hlm Hrec Hne Hymd Htruthy Hw Hold) as (item & Hrun & Hitem).
  exists item. eexists. split; [exact Hrun|]. fold path.
  pose proof (dated_name_fresh path ymd) as Hfresh.
  split; [apply lookup_insert_eq|]. split; [|exact Hitem].
  rewrite lookup_insert_ne by congruence. apply lookup_insert_eq.
Qed.

Lemma changed_file_keeps_old_copy_witness :
  let env := scenario_env new_token [Chunk "new game"] signed_ok in
  exists item fs',
    process_content_type env (scenario_self true) "ORD1901"
      "lib/Bundle_/Game - One" game_file_type (Some JoinableQueue) "web"
      scenario_fs
    = (Ok tt, fs',
       [EvGet game_url; EvRename game_path "2023-01-01";
        EvDownload game_path None; EvPut item; EvClose]) /\
    fs' !! game_path = Some "new game" /\
    fs' !! dated_name game_path "2023-01-01" = Some "old game" /\
    remote_modified_date item = Some new_token.
Proof.
  intros env.
  apply (changed_file_keeps_old_copy env (scenario_self true) "ORD1901"
           "lib/Bundle_/Game - One" game_file_type JoinableQueue "web"
           game_url new_token old_token "2023-01-01" "old game" "new game"
           (mkResponse 200 (Some new_token) [Chunk "new game"]) scenario_fs);
    try reflexivity.
  discriminate.
Defined.

(** ** [_process_download]: what holds in every case *)

(** X10. Whatever happens in [_process_download] (success, a failure it
    handles, an exception it lets through, a missing queue), the last call
    it makes is the closing of the connection. *)
Theorem connection_is_always_closed (env : Env) (self : DownloadLibrary)
    (open_r : Response) (cache_data : CsvCacheData) (path : string)
    (hint : option string) (mq : option Queue) (fs : FS) :
  last (_process_download env self open_r cache_data path hint mq fs).2
  = Some EvClose.
Proof.
  rewrite process_download_eq.
  destruct (after_rename path hint fs) as [fs1 t1].
  destruct (write_stream _ _) as [data [e|]];
    [destruct (caught e)|destruct mq]; cbn [snd];
    rewrite last_app; reflexivity.
Qed.

(** X11. A record is put on the queue only for a file that is on disk:
    if [_process_download] puts [item], then the stream was read to its
    end, the canonical path holds all its bytes, the step ended normally,
    and [item] is the record it was given with the current time as local
    modification date. *)
Theorem put_means_written (env : Env) (self : DownloadLibrary)
    (open_r : Response) (cache_data : CsvCacheData) (path : string)
    (hint : option string) (mq : option Queue) (fs : FS)
    (item : CsvCacheData) :
  let '(r, fs', t) :=
    _process_download env self open_r cache_data path hint mq fs in
  EvPut item ∈ t ->
  r = Ok tt /\
  (exists data,
     write_stream (body open_r) EmptyString = (data, None) /\
     fs' !! path = Some data) /\
  item = set_local_modified_date cache_data (now env).
Proof.
  rewrite process_download_eq. unfold after_rename.
  destruct (PyStr.truthy_opt hint); [destruct (fs !! path)|];
    destruct (write_stream _ _) as [data [e|]];
    [destruct (caught e)|destruct mq|destruct (caught e)|destruct mq
    |destruct (caught e)|destruct mq];
    cbn -[insert delete lookup]; intros Hin;
    repeat (apply elem_of_cons in Hin as [Hin|Hin]; [try discriminate|]);
    try (by apply elem_of_nil in Hin);
    injection Hin as ->;
    (split; [done|]); (split; [|done]); exists data;
    (split; [done|]); apply lookup_insert_eq.
Qed.

Lemma put_means_written_witness :
  let env := scenario_env new_token [Chunk "new game"] signed_ok in
  let open_r := mkResponse 200 (Some new_token) [Chunk "new game"] in
  let cache_data := get_cache_item scenario_cache "ORD1901" "game.zip" false in
  let run :=
    _process_download env (scenario_self true) open_r cache_data game_path
      (Some "2023-01-01") (Some JoinableQueue) scenario_fs in
  EvPut (set_local_modified_date cache_data (now env)) ∈ run.2 /\
  run.1.1 = Ok tt /\
  run.1.2 !! game_path = Some "new game".
Proof.
  intros env open_r cache_data run.
  assert (Hin : EvPut (set_local_modified_date cache_data (now env)) ∈ run.2)
    by (vm_compute; do 2 right; left).
  pose proof (put_means_written env (scenario_self true) open_r cache_data
                game_path (Some "2023-01-01") (Some JoinableQueue)
                scenario_fs (set_local_modified_date cache_data (now env)))
    as H.
  fold run in H. destruct run as [[r fs'] t]. simpl in *.
  destruct (H Hin) as (Hr & (data & Hw & Hfs) & _).
  split; [exact Hin|]. split; [exact Hr|].
  rewrite Hfs. f_equal. vm_compute in Hw. congruence.
Defined.

(** X12. [_process_download] touches two names at most: the canonical
    path and the dated name of the old copy. Every other file is after the
    step what it was before, in every case. *)
Theorem download_touches_two_names (env : Env) (self : DownloadLibrary)
    (open_r : Response) (cache_data : CsvCacheData) (path : string)
    (hint : option string) (mq : option Queue) (fs : FS) (other : string) :
  other <> path ->
  other <> dated_name path (default "" hint) ->
  (_process_download env self open_r cache_data path hint mq fs).1.2
  !! other = fs !! other.
Proof.
  intros H1 H2. rewrite process_download_eq. unfold after_rename.
  destruct (PyStr.truthy_opt hint); [destruct (fs !! path)|];
    destruct (write_stream _ _) as [data [e|]];
    [destruct (caught e)|destruct mq|destruct (caught e)|destruct mq
    |destruct (caught e)|destruct mq];
    cbn -[insert delete lookup];
    rewrite ?lookup_delete_ne, ?lookup_insert_ne, ?lookup_delete_ne by done;
    done.
Qed.

Lemma download_touches_two_names_witness :
  let env := scenario_env new_token [Chunk "new game"] signed_ok in
  let open_r := mkResponse 200 (Some new_token) [Chunk "new game"] in
  (_process_download env (scenario_self true) open_r
     (get_cache_item scenario_cache "ORD1901" "game.zip" false) game_path
     (Some "2023-01-01") (Some JoinableQueue) scenario_fs).1.2
  !! trove_path = Some "old trove".
Proof.
  intros env open_r.
  rewrite download_touches_two_names; [reflexivity| |];
    vm_compute; discriminate.
Defined.

(** ** The trove path *)

Section TroveEdges.
Variable env : Env.

Lemma trove_asked_for_signs self title product platform download fs :
  trove_asked_for self product platform download ->
  process_trove_download env self title product (platform, download) fs
  = bind
      (_get_trove_download_url env (td_machine_name download)
         (web_name_of download))
      (fun signed_url =>
         match signed_url with
         | None => ret tt
         | Some signed_url =>
             bind (emit (EvGet signed_url)) (fun _ =>
               match session_get env signed_url with
               | None => ret tt
               | Some product_r =>
                   bind
                     match epoch_to_ymd env
                             (trove_uploaded_at product download) with
                     | Some ymd => ret (Some ymd)
                     | None =>
                         raise (epoch_error env
                                  (trove_uploaded_at product download))
                     end
                     (fun uploaded_at =>
                        _process_download env self product_r
                          (set_md5
                             (set_remote_modified_date
                                (get_cache_item (cache_data_csv self)
                                   "trove" (web_name_of download) true)
                                (trove_uploaded_at product download))
                             (Some (default "UNKNOWN_MD5"
                                      (td_md5 download))))
                          (os_path_join
                             (create_product_folder env "Humble Trove"
                                title)
                             (web_name_of download))
                          uploaded_at None)
               end)
         end) fs.
Proof.
  intros (Hp & Hft & Hask & Htoken & Hmd5). unfold process_trove_download.
  rewrite Hp, Hft. cbn [negb].
  assert (contains (cache_data_csv self)
            (get_cache_item (cache_data_csv self) "trove"
               (web_name_of download) true) && negb (update self) = false)
    as ->.
  { destruct Hask as [Hnew| ->]; [|apply andb_false_r].
    unfold contains, get_cache_item, key. rewrite Hnew. simpl. rewrite Hnew.
    by rewrite bool_decide_eq_false_2 by (by intros [? ?]). }
  rewrite !bool_decide_eq_true_2 by done. reflexivity.
Qed.

(** X13. In the trove path an upload marker equal to the stored one is
    enough to leave the file alone, whatever the md5 says: no signing
    request, no fetch, nothing written. *)
Theorem equal_marker_is_unchanged (self : DownloadLibrary) (title : string)
    (product : TroveProduct) (platform : string) (download : TroveDownload)
    (fs : FS) :
  remote_modified_date
    (get_cache_item (cache_data_csv self) "trove" (web_name_of download)
       true)
  = Some (trove_uploaded_at product download) ->
  process_trove_download env self title product (platform, download) fs
  = (Ok tt, fs, []).
Proof.
  intros Hrec. unfold process_trove_download.
  destruct (negb (_should_download_platform _ _)); [done|].
  destruct (negb (_should_download_file_type _ _)); [done|].
  destruct (_ && negb _); [done|].
  rewrite Hrec.
  by rewrite (bool_decide_eq_false_2
                (Some (trove_uploaded_at product download) <> _))
    by (intros H; by apply H).
Qed.


(** X15. A signing request that raises costs the file only: the step ends
    normally after that one call and the loop goes on. *)
Theorem failed_signing_skips_file (self : DownloadLibrary) (title : string)
    (product : TroveProduct) (platform : string) (download : TroveDownload)
    (fs : FS) :
  trove_asked_for self product platform download ->
  post_sign env (td_machine_name download) (web_name_of download) = None ->
  process_trove_download env self title product (platform, download) fs
  = (Ok tt, fs,
     [EvSign (td_machine_name download) (web_name_of download)]).
Proof.
  intros Hask Hpost. rewrite trove_asked_for_signs by done.
  unfold _get_trove_download_url, bind, emit, ret. by rewrite Hpost.
Qed.

End TroveEdges.

Lemma equal_marker_is_unchanged_witness :
  let download :=
    mkTroveDownload "revolutionsoftware/BS5_v2.2.1-win32.zip"
      (Some "1672531200") None (Some "bbbb") "brokensword5_windows" in
  Some (default "UNKNOWN_MD5" (td_md5 download))
  <> md5 (get_cache_item scenario_cache "trove" (web_name_of download) true)
  /\
  process_trove_download (scenario_env new_token [Chunk "new"] signed_ok)
    (scenario_self true) "Broken Sword 5" trove_product
    ("windows", download) scenario_fs
  = (Ok tt, scenario_fs, []).
Proof.
  intros download. split; [vm_compute; discriminate|].
  apply equal_marker_is_unchanged. reflexivity.
Defined.


Lemma failed_signing_skips_file_witness :
  process_trove_download (scenario_env new_token [Chunk "new trove"] None)
    (scenario_self true) "Broken Sword 5" trove_product
    ("windows", trove_download) scenario_fs
  = (Ok tt, scenario_fs,
     [EvSign "brokensword5_windows" "BS5_v2.2.1-win32.zip"]).
Proof.
  apply (failed_signing_skips_file
           (scenario_env new_token [Chunk "new trove"] None)
           (scenario_self true) "Broken Sword 5" trove_product "windows"
           trove_download scenario_fs); [|reflexivity].
  split; [reflexivity|]. split; [reflexivity|].
  split; [right; reflexivity|]. split; vm_compute; discriminate.
Defined.

(** ** Trove runs never report, and stop at the first file they write *)

Section HaltsFacts.
Variable stop : exn.
Variable fatal : event -> bool.
Variable after : event -> list event.

Local Abbreviation Halts := (halts stop fatal after).

Lemma halts_ret {A} (a : A) : Halts (ret a).
Proof. intros fs. by left. Qed.

Lemma halts_raise {A} e : Halts (raise (A := A) e).
Proof. intros fs. by left. Qed.

Lemma halts_emit ev : fatal ev = false -> Halts (emit ev).
Proof. intros Hev fs. left. unfold quiet. simpl. by rewrite Hev. Qed.

Lemma halts_bind {A B} (m : M A) (f : A -> M B) :
  Halts m -> (forall a, Halts (f a)) -> Halts (bind m f).
Proof.
  intros Hm Hf fs. unfold bind. specialize (Hm fs).
  destruct (m fs) as [[[a|e] fs1] t1].
  2:{ destruct Hm as [Hq|(l & ev & Ht & Hl & Hev & Ha & [= ->])];
        [by left|].
      right. by exists l, ev. }
  assert (Hq1 : quiet fatal t1).
  { destruct Hm as [Hq|(l & ev & _ & _ & _ & _ & Hr)]; [done|].
    discriminate. }
  specialize (Hf a fs1). destruct (f a fs1) as [[r fs2] t2].
  destruct Hf as [Hq2|(l & ev & -> & Hl & Hev & Ha & Hr)].
  - left. by apply quiet_app.
  - right. exists (t1 ++ l), ev. rewrite app_assoc.
    repeat split; try done. by apply quiet_app.
Qed.

Lemma halts_for_each {A} (l : list A) (body : A -> M unit) :
  (forall x, Halts (body x)) -> Halts (for_each l body).
Proof.
  intros Hb. induction l as [|x l IH]; simpl.
  - apply halts_ret.
  - apply halts_bind; [apply Hb|]. intros _. exact IH.
Qed.

Lemma halts_at_fatal {A} (r : result A) fs t ev :
  halts_at stop fatal after (r, fs, t) -> ev ∈ t -> fatal ev = true ->
  r = Raise stop /\ exists l, t = l ++ ev :: after ev /\ quiet fatal l.
Proof.
  intros [Hq|(l & ev' & -> & Hl & Hev' & Ha & Hr)] Hin Hev.
  - rewrite (quiet_elem _ _ _ Hq Hin) in Hev. discriminate.
  - assert (ev = ev') as ->.
    { apply elem_of_app in Hin as [Hin|Hin].
      - rewrite (quiet_elem _ _ _ Hl Hin) in Hev. discriminate.
      - apply elem_of_cons in Hin as [->|Hin]; [done|].
        rewrite (quiet_elem _ _ _ Ha Hin) in Hev. discriminate. }
    split; [done|]. by exists l.
Qed.

Section TroveProcessors.
Variable env : Env.
Hypothesis fatal_get : forall url, fatal (EvGet url) = false.
Hypothesis halts_sign :
  forall machine_name web_name,
    Halts (_get_trove_download_url env machine_name web_name).
Hypothesis halts_download :
  forall self open_r cd path hint,
    Halts (_process_download env self open_r cd path hint None).

Lemma halts_trove_download self title product item :
  Halts (process_trove_download env self title product item).
Proof.
  unfold process_trove_download. destruct item as [platform download].
  destruct (negb (_should_download_platform _ _)); [apply halts_ret|].
  destruct (negb (_should_download_file_type _ _)); [apply halts_ret|].
  destruct (_ && negb _); [apply halts_ret|].
  destruct (_ && _); [|apply halts_ret].
  apply halts_bind; [apply halts_sign|]. intros [signed|];
    [|apply halts_ret].
  apply halts_bind; [by apply halts_emit|]. intros _.
  destruct (session_get env signed) as [product_r|]; [|apply halts_ret].
  apply halts_bind; [|intros; apply halts_download].
  simpl. destruct (epoch_to_ymd env _);
    [apply halts_ret|apply halts_raise].
Qed.

Lemma halts_start_trove self trove_products :
  Halts (start_trove env self trove_products).
Proof.
  unfold start_trove. apply halts_for_each. intros product.
  unfold _process_trove_product. apply halts_for_each. intros item.
  apply halts_trove_download.
Qed.

End TroveProcessors.

End HaltsFacts.

Lemma sign_is_quiet (env : Env) stop fatal after machine_name web_name :
  (forall m w, fatal (EvSign m w) = false) ->
  halts stop fatal after (_get_trove_download_url env machine_name web_name).
Proof.
  intros Hs fs. unfold _get_trove_download_url, bind, emit.
  assert (Hq : quiet fatal [EvSign machine_name web_name])
    by (unfold quiet; simpl; by rewrite Hs).
  destruct (post_sign env machine_name web_name) as [sign_r|]; [|by left].
  destruct (bool_decide _); [by left|].
  destruct (signed_url sign_r); by left.
Qed.

(** X16. A trove run puts no record on any queue, whatever the catalog,
    the store and the answers of the remote side: a file fetched from the
    trove never reaches the cache writer. *)
Theorem trove_run_never_reports (env : Env) (self : DownloadLibrary)
    (trove_products : list TroveProduct) (fs : FS) :
  existsb is_put (start_trove env self trove_products fs).2 = false.
Proof.
  assert (Hrun : halts SystemExit is_put (fun ev => [ev])
                   (start_trove env self trove_products)).
  { apply halts_start_trove; [done|intros; by apply sign_is_quiet|].
    intros self' open_r cd path hint fs'. rewrite process_download_eq.
    unfold after_rename, quiet.
    destruct (PyStr.truthy_opt hint); [destruct (fs' !! path)|];
      destruct (write_stream _ _) as [w [e|]];
      try destruct (caught e); by left. }
  specialize (Hrun fs).
  destruct (start_trove env self trove_products fs) as [[r fs'] t].
  cbn [snd]. apply not_true_is_false. intros Hex.
  apply existsb_exists in Hex as (ev & Hin & Hev).
  destruct Hrun as [Hq|(l & ev' & _ & _ & Hf & Ha & _)].
  - apply list_elem_of_In in Hin.
    rewrite (quiet_elem _ _ _ Hq Hin) in Hev. discriminate.
  - unfold quiet in Ha. simpl in Ha. rewrite Hf in Ha. discriminate.
Qed.

(** X17. A trove run ends at the first file it writes: when a download
    goes through, the connection is closed and [AttributeError] ([None] has
    no [put]) ends the run; no file before it was written and no file or
    product after it is looked at. *)
Theorem trove_run_stops_at_first_written_file (env : Env)
    (self : DownloadLibrary) (trove_products : list TroveProduct) (fs : FS)
    (path : string) :
  let '(r, _, t) := start_trove env self trove_products fs in
  EvDownload path None ∈ t ->
  r = Raise AttributeError /\
  exists l, t = l ++ [EvDownload path None; EvClose] /\ quiet written l.
Proof.
  assert (Hrun : halts AttributeError written after_written
                   (start_trove env self trove_products)).
  { apply halts_start_trove; [done|intros; by apply sign_is_quiet|].
    intros self' open_r cd p hint fs'. rewrite process_download_eq.
    destruct (after_rename p hint fs') as [fs1 t1] eqn:Hren.
    assert (Ht1 : quiet written t1).
    { revert Hren. unfold after_rename.
      destruct (PyStr.truthy_opt hint); [destruct (fs' !! p)|];
        by intros [= <- <-]. }
    destruct (write_stream _ _) as [w [e|]].
    - destruct (caught e); left; (apply quiet_app; [exact Ht1|done]).
    - right. exists t1, (EvDownload p None). by repeat split. }
  specialize (Hrun fs).
  destruct (start_trove env self trove_products fs) as [[r fs'] t].
  intros Hin.
  exact (halts_at_fatal _ _ _ _ _ _ _ Hrun Hin eq_refl).
Qed.

Lemma trove_run_stops_at_first_written_file_witness :
  let env := scenario_env new_token [Chunk "new trove"] signed_ok in
  let self := __init__ ∅ false None None None [] true false None in
  let run :=
    start_trove env self [trove_product; other_trove_product] ∅ in
  EvDownload trove_path None ∈ run.2 /\
  run.1.1 = Raise AttributeError /\
  exists l, run.2 = l ++ [EvDownload trove_path None; EvClose].
Proof.
  intros env self run.
  assert (Hin : EvDownload trove_path None ∈ run.2)
    by (vm_compute; do 3 right; left).
  pose proof (trove_run_stops_at_first_written_file env self
                [trove_product; other_trove_product] ∅ trove_path) as H.
  fold run in H. destruct run as [[r fs'] t]. simpl in *.
  destruct (H Hin) as (Hr & l & Hl & _).
  split; [exact Hin|]. split; [exact Hr|]. by exists l.
Defined.

(** ** [_get_trove_products] *)

Lemma pages_of_S catalog from n :
  pages_of catalog from (S n)
  = default [] (catalog from) ++ pages_of catalog (S from) n.
Proof. reflexivity. Qed.

Lemma get_trove_products_from_spec catalog n :
  forall fuel idx acc,
    (forall i, idx <= i < idx + n -> full_page catalog i) ->
    n < fuel ->
    get_trove_products_from catalog fuel idx acc
    = match catalog (idx + n) with
      | None => Some []
      | Some page_content =>
          if Nat.eqb (length page_content) 0
          then Some (acc ++ pages_of catalog idx n)
          else get_trove_products_from catalog (fuel - n) (idx + n)
                 (acc ++ pages_of catalog idx n)
      end.
Proof.
  induction n as [|n IH]; intros fuel idx acc Hfull Hfuel.
  - rewrite Nat.add_0_r, Nat.sub_0_r. unfold pages_of. simpl.
    rewrite app_nil_r. destruct fuel as [|fuel]; [lia|]. simpl.
    destruct (catalog idx) as [page|]; [|done].
    by destruct (Nat.eqb (length page) 0).
  - destruct fuel as [|fuel]; [lia|]. simpl.
    destruct (Hfull idx ltac:(lia)) as (page & Hpage & Hne).
    rewrite Hpage.
    assert (Nat.eqb (length page) 0 = false) as ->.
    { apply Nat.eqb_neq. by destruct page. }
    rewrite (IH fuel (S idx) (acc ++ page)) by (try lia; intros i Hi;
                                                 apply Hfull; lia).
    rewrite pages_of_S, Hpage. simpl.
    replace (idx + S n) with (S (idx + n)) by lia.
    by rewrite <- !app_assoc.
Qed.

(** X18. When the catalog serves [n] pages with products and then an empty
    page, [_get_trove_products] ends after [n + 1] requests and returns
    the products of the [n] pages, in order. *)
Theorem trove_products_are_all_pages (catalog : nat -> option (list TroveProduct))
    (n fuel : nat) :
  (forall i, i < n -> full_page catalog i) ->
  catalog n = Some [] ->
  n < fuel ->
  _get_trove_products catalog fuel = Some (pages_of catalog 0 n).
Proof.
  intros Hfull Hlast Hfuel. unfold _get_trove_products.
  rewrite (get_trove_products_from_spec catalog n)
    by (try done; intros i Hi; apply Hfull; lia).
  simpl. by rewrite Hlast.
Qed.

Lemma trove_products_are_all_pages_witness :
  _get_trove_products scenario_catalog 3
  = Some [trove_product; other_trove_product].
Proof.
  apply (trove_products_are_all_pages scenario_catalog 2 3);
    [|reflexivity|lia].
  intros [|[|i]] Hi; [| |lia]; eexists; (split; [reflexivity|discriminate]).
Defined.

(** X19. When a request for a page raises, [_get_trove_products] returns
    the empty list: the products of the pages already read are dropped,
    and the trove run that follows has nothing to do. *)
Theorem failed_page_drops_all_products
    (catalog : nat -> option (list TroveProduct)) (n fuel : nat) :
  (forall i, i < n -> full_page catalog i) ->
  catalog n = None ->
  n < fuel ->
  _get_trove_products catalog fuel = Some [].
Proof.
  intros Hfull Hlast Hfuel. unfold _get_trove_products.
  rewrite (get_trove_products_from_spec catalog n)
    by (try done; intros i Hi; apply Hfull; lia).
  simpl. by rewrite Hlast.
Qed.

Lemma failed_page_drops_all_products_witness :
  _get_trove_products broken_catalog 2 = Some [].
Proof.
  apply (failed_page_drops_all_products broken_catalog 1 2);
    [|reflexivity|lia].
  intros [|i] Hi; [|lia]. eexists. split; [reflexivity|discriminate].
Defined.

(** ** [TimeoutHTTPAdapter] *)

(** X20. The timeout a request goes out with: one given with the request
    and not [None] is kept; otherwise it is the one the adapter was built
    with, or 5 seconds when the adapter was built without a [timeout]
    keyword, as [DownloadLibrary.__init__] builds it. *)
Theorem request_timeout (init_kwargs kwargs : gmap string pyval) :
  let adapter := adapter_init init_kwargs in
  let sent := adapter_send adapter kwargs in
  (forall t, kwargs !! "timeout" = Some t -> t <> PyNone ->
             sent !! "timeout" = Some t) /\
  (kwargs_get kwargs "timeout" = PyNone ->
   sent !! "timeout"
   = Some (default DEFAULT_TIMEOUT (init_kwargs !! "timeout"))) /\
  (init_kwargs !! "timeout" = None ->
   kwargs_get kwargs "timeout" = PyNone ->
   sent !! "timeout" = Some (PyNum 5)).
Proof.
  intros adapter sent.
  assert (Hnone : kwargs_get kwargs "timeout" = PyNone ->
                  sent !! "timeout"
                  = Some (default DEFAULT_TIMEOUT (init_kwargs !! "timeout"))).
  { intros Hk. unfold sent, adapter_send. rewrite Hk.
    rewrite lookup_insert_eq. f_equal. unfold adapter, adapter_init.
    by destruct (init_kwargs !! "timeout"). }
  split; [|split; [exact Hnone|]].
  - intros t Ht Hne. unfold sent, adapter_send, kwargs_get. rewrite Ht.
    simpl. by destruct t.
  - intros Hinit Hk. rewrite (Hnone Hk), Hinit. reflexivity.
Qed.

Lemma request_timeout_witness :
  let adapter := adapter_init {[ "max_retries" := PyObj "Retry" ]} in
  adapter_send adapter {[ "stream" := PyObj "True" ]} !! "timeout"
  = Some (PyNum 5) /\
  adapter_send adapter {[ "timeout" := PyNum 30 ]} !! "timeout"
  = Some (PyNum 30).
Proof.
  intros adapter.
  destruct (request_timeout {[ "max_retries" := PyObj "Retry" ]}
              {[ "stream" := PyObj "True" ]}) as (_ & _ & H5).
  destruct (request_timeout {[ "max_retries" := PyObj "Retry" ]}
              {[ "timeout" := PyNum 30 ]}) as (Hkeep & _).
  split; [apply H5; reflexivity|].
  apply Hkeep; [reflexivity|discriminate].
Defined.

(** X21. Neither [__init__] nor [send] touches a keyword other than
    [timeout]: [__init__] hands every other keyword on to [HTTPAdapter]
    and keeps [timeout] for itself; [send] hands every other keyword on
    unchanged. *)
Theorem adapter_keeps_other_keywords (init_kwargs kwargs : gmap string pyval)
    (k : string) :
  super_kwargs (adapter_init init_kwargs) !! "timeout" = None /\
  (k <> "timeout" ->
   super_kwargs (adapter_init init_kwargs) !! k = init_kwargs !! k /\
   adapter_send (adapter_init init_kwargs) kwargs !! k = kwargs !! k).
Proof.
  split.
  - unfold adapter_init.
    destruct (init_kwargs !! "timeout") eqn:Ht; simpl; [|done].
    apply lookup_delete_eq.
  - intros Hk. split.
    + unfold adapter_init. destruct (init_kwargs !! "timeout"); simpl;
        [by rewrite lookup_delete_ne|done].
    + unfold adapter_send. destruct (kwargs_get kwargs "timeout");
        [by rewrite lookup_insert_ne|done|done].
Qed.

Lemma adapter_keeps_other_keywords_witness :
  let init_kwargs : gmap string pyval :=
    {[ "max_retries" := PyObj "Retry"; "timeout" := PyNum 9 ]} in
  super_kwargs (adapter_init init_kwargs) !! "max_retries"
  = Some (PyObj "Retry") /\
  adapter_send (adapter_init init_kwargs) {[ "stream" := PyObj "True" ]}
  !! "stream" = Some (PyObj "True").
Proof.
  intros init_kwargs.
  destruct (adapter_keeps_other_keywords init_kwargs
              {[ "stream" := PyObj "True" ]} "max_retries") as (_ & H1).
  destruct (adapter_keeps_other_keywords init_kwargs
              {[ "stream" := PyObj "True" ]} "stream") as (_ & H2).
  split.
  - rewrite (proj1 (H1 ltac:(discriminate))). reflexivity.
  - rewrite (proj2 (H2 ltac:(discriminate))). reflexivity.
Defined.
